(** * flight-planner-agent: enumeration of queries and normalisation of responses

    A shallow embedding of [one_way.py], [round_trip.py] and [main.py].

    - Documents are the values [json.load] returns: Python dicts, lists,
      strings, numbers, booleans and [None].  Dicts are finite maps from
      strings ([gmap string json]).
    - Python's dynamic operations ([d.get(k, default)], [v[k]], [v[0]],
      [a + b], [for x in v]) are written out with the exception each one
      raises on a value of the wrong shape.
    - A function that can raise returns a [result]; the files a function
      reads and writes are an explicit store that is passed through.
    - The loops of [main] are folds that record, iteration by iteration,
      which branch the loop body took. *)

From stdpp Require Import gmap strings list fin_maps.
From Stdlib Require Import ZArith Lia Ascii.

#[local] Open Scope string_scope.
#[local] Open Scope list_scope.
#[local] Set Warnings "-register-all".

(** ** Values *)

(** What [json.load] produces.  [JNull] is Python's [None].  A float is
    kept as its 64-bit pattern; no arithmetic on it is ever needed. *)
Inductive json :=
| JNull
| JBool (b : bool)
| JInt (n : Z)
| JFloat (bits : Z)
| JStr (s : string)
| JList (l : list json)
| JDict (m : gmap string json).

(** ** Exceptions and results *)

Inductive exn :=
| KeyError (key : string)
| IndexError
| TypeError
| AttributeError
| FileNotFoundError (path : string)
| JSONDecodeError.

Inductive result (A : Type) :=
| Ok (a : A)
| Raise (e : exn).
Arguments Ok {A} a.
Arguments Raise {A} e.

#[export] Instance result_ret : MRet result := λ A a, Ok a.
#[export] Instance result_bind : MBind result := λ A B f r,
  match r with
  | Ok a => f a
  | Raise e => Raise e
  end.

Definition is_ok {A} (r : result A) : bool :=
  match r with Ok _ => true | Raise _ => false end.

(** ** Python operations on loaded values *)

(** [d.get(key, dflt)]: only a dict has the method. *)
Definition py_get (d : json) (key : string) (dflt : json) : result json :=
  match d with
  | JDict m => Ok (default dflt (m !! key))
  | _ => Raise AttributeError
  end.

(** [v[key]] with a string key.  A list or a string wants an integer
    index, the other values are not subscriptable: both are TypeErrors. *)
Definition py_getitem (v : json) (key : string) : result json :=
  match v with
  | JDict m =>
      match m !! key with
      | Some x => Ok x
      | None => Raise (KeyError key)
      end
  | _ => Raise TypeError
  end.

(** [v[0]].  A dict loaded from JSON has string keys only, so the integer
    key 0 is never found. *)
Definition py_getitem0 (v : json) : result json :=
  match v with
  | JList (x :: _) => Ok x
  | JList [] => Raise IndexError
  | JStr (String c _) => Ok (JStr (String c EmptyString))
  | JStr EmptyString => Raise IndexError
  | JDict _ => Raise (KeyError "0")
  | _ => Raise TypeError
  end.

(** The characters of a string, as [for c in s] yields them. *)
Fixpoint py_chars (s : string) : list json :=
  match s with
  | EmptyString => []
  | String c rest => JStr (String c EmptyString) :: py_chars rest
  end.

(** ** The normalizers *)

(** Line 42 of one_way.py (53 of round_trip.py) together with the [for]
    that consumes its value:
    [all_flights = data.get("best_flights", []) + data.get("other_flights", [])]
    gives the sequence of the loop's entries.  Two lists concatenate; so do
    two strings, whose characters the loop then visits; two numbers add up
    to a number, which [for] rejects; any other pair is rejected by [+].
    Every rejection is recorded as [TypeError]. *)
Definition all_flights (data : json) : result (list json) :=
  best ← py_get data "best_flights" (JList []);
  other ← py_get data "other_flights" (JList []);
  match best, other with
  | JList b, JList o => Ok (b ++ o)
  | JStr b, JStr o => Ok (py_chars (String.append b o))
  | _, _ => Raise TypeError
  end.

(** The dict appended to [rows] for one entry (one_way.py, lines 47-62). *)
Record flat_record := {
  flight_number : json;
  airline : json;
  airplane : json;
  travel_class : json;
  legroom : json;
  departure_airport_id : json;
  departure_airport_name : json;
  departure_time : json;
  arrival_airport_id : json;
  arrival_airport_name : json;
  arrival_time : json;
  duration_min : json;
  price_usd : json;
  booking_token : json;
}.

(** [seg[airport][field]] *)
Definition airport_field (seg : json) (airport field : string) : result json :=
  a ← py_getitem seg airport;
  py_getitem a field.

(** The body of the loop of [process_flight_data]; the values of the dict
    display are evaluated in the order they are written. *)
Definition flight_row (entry : json) : result flat_record :=
  flights ← py_getitem entry "flights";
  seg ← py_getitem0 flights;
  v_flight_number ← py_get seg "flight_number" JNull;
  v_airline ← py_get seg "airline" JNull;
  v_airplane ← py_get seg "airplane" (JStr "");
  v_travel_class ← py_get seg "travel_class" (JStr "");
  v_legroom ← py_get seg "legroom" (JStr "");
  v_dep_id ← airport_field seg "departure_airport" "id";
  v_dep_name ← airport_field seg "departure_airport" "name";
  v_dep_time ← airport_field seg "departure_airport" "time";
  v_arr_id ← airport_field seg "arrival_airport" "id";
  v_arr_name ← airport_field seg "arrival_airport" "name";
  v_arr_time ← airport_field seg "arrival_airport" "time";
  seg_duration ← py_get seg "duration" JNull;
  v_duration ← py_get entry "total_duration" seg_duration;
  v_price ← py_get entry "price" JNull;
  v_token ← py_get entry "booking_token" JNull;
  Ok {| flight_number := v_flight_number;
        airline := v_airline;
        airplane := v_airplane;
        travel_class := v_travel_class;
        legroom := v_legroom;
        departure_airport_id := v_dep_id;
        departure_airport_name := v_dep_name;
        departure_time := v_dep_time;
        arrival_airport_id := v_arr_id;
        arrival_airport_name := v_arr_name;
        arrival_time := v_arr_time;
        duration_min := v_duration;
        price_usd := v_price;
        booking_token := v_token |}.

(** [for entry in all_flights: rows.append(row_of(entry))], with [rows] the
    list built so far; both normalizers run this loop, each with its own
    body.  An exception leaves the loop and drops [rows]. *)
Fixpoint collect_rows {R} (row_of : json → result R) (entries : list json)
    (rows : list R) : result (list R) :=
  match entries with
  | [] => Ok rows
  | entry :: rest =>
      row ← row_of entry;
      collect_rows row_of rest (rows ++ [row])
  end.

(** The dict appended to [rows] for one entry (round_trip.py, lines 57-74). *)
Record roundtrip_record := {
  rt_flight_number : json;
  rt_airline : json;
  rt_airplane : json;
  rt_travel_class : json;
  rt_legroom : json;
  rt_departure_airport_id : json;
  rt_departure_airport_name : json;
  rt_departure_time : json;
  rt_arrival_airport_id : json;
  rt_arrival_airport_name : json;
  rt_arrival_time : json;
  total_duration_min : json;
  rt_price_usd : json;
  trip_type : json;
  departure_token : json;
  fetched_at : json;
}.

(** The body of the loop of [process_roundtrip_data]; [v_fetched_at] is the
    variable [fetched_at] set on line 52. *)
Definition roundtrip_row (v_fetched_at : json) (entry : json)
  : result roundtrip_record :=
  flights ← py_getitem entry "flights";
  seg ← py_getitem0 flights;
  v_flight_number ← py_get seg "flight_number" JNull;
  v_airline ← py_get seg "airline" JNull;
  v_airplane ← py_get seg "airplane" (JStr "");
  v_travel_class ← py_get seg "travel_class" (JStr "");
  v_legroom ← py_get seg "legroom" (JStr "");
  v_dep_id ← airport_field seg "departure_airport" "id";
  v_dep_name ← airport_field seg "departure_airport" "name";
  v_dep_time ← airport_field seg "departure_airport" "time";
  v_arr_id ← airport_field seg "arrival_airport" "id";
  v_arr_name ← airport_field seg "arrival_airport" "name";
  v_arr_time ← airport_field seg "arrival_airport" "time";
  v_duration ← py_get entry "total_duration" JNull;
  v_price ← py_get entry "price" JNull;
  v_type ← py_get entry "type" JNull;
  v_token ← py_get entry "departure_token" JNull;
  Ok {| rt_flight_number := v_flight_number;
        rt_airline := v_airline;
        rt_airplane := v_airplane;
        rt_travel_class := v_travel_class;
        rt_legroom := v_legroom;
        rt_departure_airport_id := v_dep_id;
        rt_departure_airport_name := v_dep_name;
        rt_departure_time := v_dep_time;
        rt_arrival_airport_id := v_arr_id;
        rt_arrival_airport_name := v_arr_name;
        rt_arrival_time := v_arr_time;
        total_duration_min := v_duration;
        rt_price_usd := v_price;
        trip_type := v_type;
        departure_token := v_token;
        fetched_at := v_fetched_at |}.

(** Lines 42-62 of one_way.py: from the loaded document to [rows]. *)
Definition normalize_one_way (data : json) : result (list flat_record) :=
  entries ← all_flights data;
  collect_rows flight_row entries [].

(** Lines 52-74 of round_trip.py. *)
Definition normalize_roundtrip (data : json) : result (list roundtrip_record) :=
  v_fetched_at ← py_get data "_fetched_at" (JStr "");
  entries ← all_flights data;
  collect_rows (roundtrip_row v_fetched_at) entries [].

(** ** Files *)

(** What a file holds: a raw document as [json.dump] wrote it, or the rows
    of a table as [DataFrame.to_csv] wrote them.  A table is not a
    document: loading one as JSON raises. *)
Inductive file :=
| RawJson (doc : json)
| OneWayCsv (rows : list flat_record)
| RoundTripCsv (rows : list roundtrip_record).

(** [with open(raw_json_file) as f: data = json.load(f)] *)
Definition load_json (raw_json_file : string) (fs : gmap string file)
  : result json :=
  match fs !! raw_json_file with
  | None => Raise (FileNotFoundError raw_json_file)
  | Some (RawJson data) => Ok data
  | Some _ => Raise JSONDecodeError
  end.

(** [process_flight_data(raw_json_file, output_csv)]: the table is written
    after the loop, so an exception in the loop leaves the files as they
    were. *)
Definition process_flight_data (raw_json_file output_csv : string)
    (fs : gmap string file) : result (list flat_record) * gmap string file :=
  match load_json raw_json_file fs ≫= normalize_one_way with
  | Ok rows => (Ok rows, <[output_csv := OneWayCsv rows]> fs)
  | Raise e => (Raise e, fs)
  end.

Definition process_roundtrip_data (raw_json_file output_csv : string)
    (fs : gmap string file) : result (list roundtrip_record) * gmap string file :=
  match load_json raw_json_file fs ≫= normalize_roundtrip with
  | Ok rows => (Ok rows, <[output_csv := RoundTripCsv rows]> fs)
  | Raise e => (Raise e, fs)
  end.

(** [results[key] = value] *)
Definition py_setitem (d : json) (key : string) (value : json) : result json :=
  match d with
  | JDict m => Ok (JDict (<[key := value]> m))
  | _ => Raise TypeError
  end.

(** [fetch_flight_data_raw]: [results] is what the provider returned for
    the query ([search.get_dict()]); it is written to [raw_json_file]. *)
Definition fetch_flight_data_raw (results : json) (raw_json_file : string)
    (fs : gmap string file) : gmap string file :=
  <[raw_json_file := RawJson results]> fs.

(** [fetch_roundtrip_data_raw]: [now] is [datetime.now().isoformat()]; the
    document is stamped before it is written. *)
Definition fetch_roundtrip_data_raw (results : json) (now : string)
    (raw_json_file : string) (fs : gmap string file)
  : result unit * gmap string file :=
  match py_setitem results "_fetched_at" (JStr now) with
  | Ok stamped => (Ok (), <[raw_json_file := RawJson stamped]> fs)
  | Raise e => (Raise e, fs)
  end.

(** ** The batch driver (main.py) *)

(** A [datetime.date]; Python orders dates by year, then month, then day. *)
Record date := { year : Z; month : Z; day : Z }.

#[export] Instance date_eq_dec : EqDecision date.
Proof. solve_decision. Defined.

Definition date_compare (a b : date) : comparison :=
  match (year a ?= year b)%Z with
  | Eq =>
      match (month a ?= month b)%Z with
      | Eq => (day a ?= day b)%Z
      | c => c
      end
  | c => c
  end.

(** [a <= b] on dates *)
Definition date_leb (a b : date) : bool :=
  match date_compare a b with
  | Gt => false
  | _ => true
  end.

(** [a] is strictly before [b] *)
Definition date_lt (a b : date) : Prop := date_compare a b = Lt.

Record one_way_query := {
  ow_origin : string;
  ow_destination : string;
  ow_outbound_date : date;
}.

Record round_trip_query := {
  origin : string;
  destination : string;
  outbound_date : date;
  return_date : date;
}.

(** What one pass through a loop body did: left it at a [continue], or
    went on to announce, fetch and process one query. *)
Inductive step :=
| SkipSelf (from_city to_city : string)
| SkipDates (from_city to_city : string) (depart_date ret_date : date)
| OneWay (q : one_way_query)
| RoundTrip (q : round_trip_query).

(** [for x in xs: body], threading the steps taken so far. *)
Fixpoint for_each {A} (xs : list A) (body : A → list step → list step)
    (done_so_far : list step) : list step :=
  match xs with
  | [] => done_so_far
  | x :: rest => for_each rest body (body x done_so_far)
  end.

(** Lines 50-68 of main.py. *)
Definition one_way_loop (cities : list string) (depart_dates : list date)
  : list step → list step :=
  for_each cities (λ from_city,
    for_each cities (λ to_city tr,
      if bool_decide (from_city = to_city) then
        tr ++ [SkipSelf from_city to_city]
      else
        for_each depart_dates (λ depart_date tr,
          tr ++ [OneWay {| ow_origin := from_city;
                           ow_destination := to_city;
                           ow_outbound_date := depart_date |}]) tr)).

(** Lines 72-94 of main.py. *)
Definition round_trip_loop (cities : list string)
    (depart_dates return_dates : list date) : list step → list step :=
  for_each cities (λ from_city,
    for_each cities (λ to_city tr,
      if bool_decide (from_city = to_city) then
        tr ++ [SkipSelf from_city to_city]
      else
        for_each depart_dates (λ depart_date,
          for_each return_dates (λ ret_date tr,
            if date_leb ret_date depart_date then
              tr ++ [SkipDates from_city to_city depart_date ret_date]
            else
              tr ++ [RoundTrip {| origin := from_city;
                                  destination := to_city;
                                  outbound_date := depart_date;
                                  return_date := ret_date |}])) tr)).

Inductive mode := ModeOneWay | ModeRoundTrip | ModeBoth.

(** [args.mode in ("one-way", "both")] and [args.mode in ("round-trip", "both")] *)
Definition runs_one_way (m : mode) : bool :=
  match m with ModeOneWay | ModeBoth => true | ModeRoundTrip => false end.
Definition runs_round_trip (m : mode) : bool :=
  match m with ModeRoundTrip | ModeBoth => true | ModeOneWay => false end.

(** A list is true when it is not empty. *)
Definition py_truthy {A} (l : list A) : bool :=
  match l with [] => false | _ => true end.

(** The two loops of [main], with the collaborators taken to return
    normally. *)
Definition main (m : mode) (cities : list string)
    (depart_dates return_dates : list date) : list step :=
  let tr := if runs_one_way m then one_way_loop cities depart_dates [] else [] in
  if runs_round_trip m && py_truthy return_dates
  then round_trip_loop cities depart_dates return_dates tr
  else tr.

(** The queries a run made, in the order it made them. *)
Definition one_way_queries (tr : list step) : list one_way_query :=
  omap (λ s, match s with OneWay q => Some q | _ => None end) tr.

Definition round_trip_queries (tr : list step) : list round_trip_query :=
  omap (λ s, match s with RoundTrip q => Some q | _ => None end) tr.

(** The combinations a run dropped on line 79 (return date not after the
    outbound date). *)
Definition date_skips (tr : list step) : list round_trip_query :=
  omap (λ s, match s with
             | SkipDates f t d r =>
                 Some {| origin := f; destination := t;
                         outbound_date := d; return_date := r |}
             | _ => None
             end) tr.

(** ** Vocabulary of the specification *)

(** The first segment of an entry: [entry["flights"][0]]. *)
Definition first_segment (entry : json) : result json :=
  flights ← py_getitem entry "flights";
  py_getitem0 flights.

(** An airport reference with its three fields. *)
Definition has_key (m : gmap string json) (key : string) : bool :=
  match m !! key with Some _ => true | None => false end.

Definition has_airport (seg : gmap string json) (airport : string) : bool :=
  match seg !! airport with
  | Some (JDict a) => has_key a "id" && has_key a "name" && has_key a "time"
  | _ => false
  end.

(** The entries both loop bodies accept: a dict whose ["flights"] has a
    first element that is a dict with both airport references. *)
Definition well_formed (entry : json) : bool :=
  match first_segment entry with
  | Ok (JDict seg) =>
      has_airport seg "departure_airport" && has_airport seg "arrival_airport"
  | _ => false
  end.

(** [v] is a dict that has no [key]. *)
Definition lacks (v : json) (key : string) : Prop :=
  ∃ m, v = JDict m ∧ m !! key = None.

(** The segment has no such airport reference, or the reference misses
    one of [id], [name], [time]. *)
Definition airport_defect (seg : json) (airport : string) : Prop :=
  lacks seg airport ∨
  ∃ a, py_getitem seg airport = Ok a ∧
       (lacks a "id" ∨ lacks a "name" ∨ lacks a "time").

(** The entry has no ["flights"], or its first segment has a defective
    airport reference. *)
Definition entry_defect (entry : json) : Prop :=
  lacks entry "flights" ∨
  ∃ seg, first_segment entry = Ok seg ∧
         (airport_defect seg "departure_airport" ∨
          airport_defect seg "arrival_airport").

(** ** Sample documents *)

Definition dict (items : list (string * json)) : json :=
  JDict (list_to_map items).

Definition sample_airport (id name time : string) : json :=
  dict [("id", JStr id); ("name", JStr name); ("time", JStr time)].

(** A segment of 125 minutes from DEL to BOM. *)
Definition sample_segment (number : string) : json :=
  dict [("flight_number", JStr number);
        ("airline", JStr "Air India");
        ("departure_airport",
          sample_airport "DEL" "Indira Gandhi International" "2025-03-01 06:00");
        ("arrival_airport",
          sample_airport "BOM" "Chhatrapati Shivaji Maharaj" "2025-03-01 08:05");
        ("duration", JInt 125)].

(** An entry with an entry-level duration. *)
Definition entry_A : json :=
  dict [("flights", JList [sample_segment "AI 101"]);
        ("total_duration", JInt 130);
        ("price", JInt 90);
        ("booking_token", JStr "tokA");
        ("type", JStr "Round trip");
        ("departure_token", JStr "depA")].

(** An entry without [total_duration]. *)
Definition entry_B : json :=
  dict [("flights", JList [sample_segment "AI 202"]);
        ("price", JInt 75)].

(** An entry whose [total_duration] is [null]. *)
Definition entry_C : json :=
  dict [("flights", JList [sample_segment "AI 303"]);
        ("total_duration", JNull);
        ("price", JInt 60)].

(** An entry whose first segment has no [departure_airport.time]. *)
Definition entry_no_time : json :=
  dict [("flights", JList [
          dict [("flight_number", JStr "AI 404");
                ("departure_airport",
                  dict [("id", JStr "DEL"); ("name", JStr "Indira Gandhi International")]);
                ("arrival_airport",
                  sample_airport "BOM" "Chhatrapati Shivaji Maharaj" "2025-03-01 08:05")]]);
        ("total_duration", JInt 125)].

Definition sample_doc : json :=
  dict [("best_flights", JList [entry_A; entry_B]);
        ("other_flights", JList [entry_C])].

(** A document whose second entry is defective. *)
Definition defective_doc : json :=
  dict [("best_flights", JList [entry_A; entry_no_time]);
        ("other_flights", JList [entry_C])].

Definition sample_raw : string := "DEL_BOM_2025-03-01.json".
Definition sample_csv : string := "DEL_BOM_2025-03-01.csv".

(** The files after the raw document was saved. *)
Definition sample_files (doc : json) : gmap string file :=
  {[ sample_raw := RawJson doc ]}.

(** A document with neither list, and one with [other_flights] only. *)
Definition empty_doc : json :=
  dict [("search_metadata", dict [("status", JStr "Success")])].


(** ** Vocabulary of the enumeration *)

(** The steps of the round-trip loops, written as nested comprehensions. *)
Definition round_trip_steps (cities : list string)
    (depart_dates return_dates : list date) : list step :=
  from_city ← cities; to_city ← cities;
  if bool_decide (from_city = to_city) then [SkipSelf from_city to_city]
  else
    depart_date ← depart_dates; ret_date ← return_dates;
    [if date_leb ret_date depart_date
     then SkipDates from_city to_city depart_date ret_date
     else RoundTrip {| origin := from_city; destination := to_city;
                       outbound_date := depart_date; return_date := ret_date |}].

Definition one_way_steps (cities : list string) (depart_dates : list date)
  : list step :=
  from_city ← cities; to_city ← cities;
  if bool_decide (from_city = to_city) then [SkipSelf from_city to_city]
  else
    depart_date ← depart_dates;
    [OneWay {| ow_origin := from_city; ow_destination := to_city;
               ow_outbound_date := depart_date |}].

(** The full Cartesian product, origin outermost, then destination, then
    outbound date, return date innermost. *)
Definition combinations (cities : list string)
    (depart_dates return_dates : list date) : list round_trip_query :=
  from_city ← cities; to_city ← cities;
  depart_date ← depart_dates; ret_date ← return_dates;
  [{| origin := from_city; destination := to_city;
      outbound_date := depart_date; return_date := ret_date |}].

(** The combinations that pass both filters. *)
Definition kept (q : round_trip_query) : Prop :=
  origin q ≠ destination q ∧ date_lt (outbound_date q) (return_date q).

#[export] Instance kept_dec q : Decision (kept q).
Proof. unfold kept, date_lt. apply _. Defined.

(** The bound of the specification: |C| (|C| - 1) |D_out| |D_ret|. *)
Definition size_bound (cities : list string)
    (depart_dates return_dates : list date) : nat :=
  length cities * (length cities - 1) * length depart_dates * length return_dates.

(** The combinations dropped for their dates alone. *)
Definition date_skipped (q : round_trip_query) : Prop :=
  origin q ≠ destination q ∧ date_leb (return_date q) (outbound_date q) = true.

#[export] Instance date_skipped_dec q : Decision (date_skipped q).
Proof. unfold date_skipped. apply _. Defined.

(** The combinations whose two cities differ. *)
Definition distinct_cities (q : round_trip_query) : Prop :=
  origin q ≠ destination q.

#[export] Instance distinct_cities_dec q : Decision (distinct_cities q).
Proof. unfold distinct_cities. apply _. Defined.

(** Sample inputs: two cities and days of March 2025. *)
Definition mar (d : Z) : date := {| year := 2025; month := 3; day := d |}.
Definition sample_cities : list string := ["DEL"; "BOM"].

(** ** The single-query scripts (the [main] of one_way.py and round_trip.py) *)

(** [x or dflt] on an optional string argument: [None] and the empty
    string both give [dflt]. *)
Definition py_or (x : option string) (dflt : string) : string :=
  match x with
  | Some (String c s) => String c s
  | _ => dflt
  end.

(** Steps 1 and 2 of [one_way.main] (lines 94-107): the response is saved
    under [raw_json_file] and that file is processed. *)
Definition one_way_pipeline (results : json) (raw_json_file output_csv : string)
    (fs : gmap string file) : result (list flat_record) * gmap string file :=
  process_flight_data raw_json_file output_csv
    (fetch_flight_data_raw results raw_json_file fs).

(** Lines 108-119 of [round_trip.main]. *)
Definition roundtrip_pipeline (results : json) (now : string)
    (raw_json_file output_csv : string) (fs : gmap string file)
  : result (list roundtrip_record) * gmap string file :=
  match fetch_roundtrip_data_raw results now raw_json_file fs with
  | (Ok _, fs1) => process_roundtrip_data raw_json_file output_csv fs1
  | (Raise e, fs1) => (Raise e, fs1)
  end.

(** The row of an entry with its stamp replaced. *)
Definition with_fetched_at (stamp : json) (row : roundtrip_record)
  : roundtrip_record :=
  {| rt_flight_number := rt_flight_number row;
     rt_airline := rt_airline row;
     rt_airplane := rt_airplane row;
     rt_travel_class := rt_travel_class row;
     rt_legroom := rt_legroom row;
     rt_departure_airport_id := rt_departure_airport_id row;
     rt_departure_airport_name := rt_departure_airport_name row;
     rt_departure_time := rt_departure_time row;
     rt_arrival_airport_id := rt_arrival_airport_id row;
     rt_arrival_airport_name := rt_arrival_airport_name row;
     rt_arrival_time := rt_arrival_time row;
     total_duration_min := total_duration_min row;
     rt_price_usd := rt_price_usd row;
     trip_type := trip_type row;
     departure_token := departure_token row;
     fetched_at := stamp |}.

(** ** The command line of the batch driver *)

(** [s.split(sep)] for a separator of one character: the pieces between
    the separators, in order; the empty string gives one empty piece. *)
Fixpoint py_split (sep : ascii) (s : string) : list string :=
  match s with
  | EmptyString => [EmptyString]
  | String c rest =>
      if bool_decide (c = sep) then EmptyString :: py_split sep rest
      else
        match py_split sep rest with
        | piece :: pieces => String c piece :: pieces
        | [] => [String c EmptyString]
        end
  end.

(** [sep.join(pieces)] *)
Fixpoint py_join (sep : ascii) (pieces : list string) : string :=
  match pieces with
  | [] => EmptyString
  | [piece] => piece
  | piece :: rest => piece +:+ String sep (py_join sep rest)
  end.

(** The character does not occur in the string. *)
Fixpoint free_of (c : ascii) (s : string) : bool :=
  match s with
  | EmptyString => true
  | String c' rest => negb (bool_decide (c' = c)) && free_of c rest
  end.

(** What [parse_args] returns: [--cities] and [--depart_dates] are
    required, [--return_dates] may be left out, [--mode] is one of three. *)
Record cli_args := {
  arg_cities : string;
  arg_depart_dates : string;
  arg_return_dates : option string;
  arg_mode : mode;
}.

(** The exceptions [main] can raise before its loops. *)
Inductive startup_error :=
| RuntimeError
| ValueError (text : string).

Section driver.
  (** [datetime.fromisoformat(d).date()]: the date a string stands for, or
      [None] where Python raises ValueError. *)
  Context (fromisoformat : string → option date).

(** The list comprehension of [iso_dates], piece by piece; the first piece
    that is no date raises. *)
Fixpoint parse_dates (pieces : list string) : startup_error + list date :=
  match pieces with
  | [] => inr []
  | d :: rest =>
      match fromisoformat d with
      | None => inl (ValueError d)
      | Some parsed =>
          match parse_dates rest with
          | inl e => inl e
          | inr dates => inr (parsed :: dates)
          end
      end
  end.

Definition iso_dates (date_strings : string) : startup_error + list date :=
  parse_dates (py_split ","%char date_strings).

(** Lines 40-46 of main.py, then the loops.  [api_key] is what
    [os.getenv] gave; a missing or empty key, and a missing or empty
    [--return_dates], are both false to [if]. *)
Definition main_cli (api_key : option string) (args : cli_args)
  : startup_error + list step :=
  match api_key with
  | None | Some EmptyString => inl RuntimeError
  | Some _ =>
      let cities := py_split ","%char (arg_cities args) in
      match iso_dates (arg_depart_dates args) with
      | inl e => inl e
      | inr depart_dates =>
          match
            match arg_return_dates args with
            | None | Some EmptyString => inr []
            | Some s => iso_dates s
            end
          with
          | inl e => inl e
          | inr return_dates =>
              inr (main (arg_mode args) cities depart_dates return_dates)
          end
      end
  end.
End driver.

(** A one-way query read off a round-trip combination. *)
Definition to_one_way (q : round_trip_query) : one_way_query :=
  {| ow_origin := origin q; ow_destination := destination q;
     ow_outbound_date := outbound_date q |}.

(** The same trip in the other direction. *)
Definition reverse_one_way (q : one_way_query) : one_way_query :=
  {| ow_origin := ow_destination q; ow_destination := ow_origin q;
     ow_outbound_date := ow_outbound_date q |}.

Definition reverse_round_trip (q : round_trip_query) : round_trip_query :=
  {| origin := destination q; destination := origin q;
     outbound_date := outbound_date q; return_date := return_date q |}.

(** A parser for the sample runs: it knows two days of March 2025. *)
Definition sample_fromisoformat (s : string) : option date :=
  if bool_decide (s = "2025-03-01") then Some (mar 1)
  else if bool_decide (s = "2025-03-05") then Some (mar 5)
  else None.

Definition sample_args (return_dates : option string) (m : mode) : cli_args :=
  {| arg_cities := "DEL,BOM";
     arg_depart_dates := "2025-03-01";
     arg_return_dates := return_dates;
     arg_mode := m |}.

(** ** File names (main.py, lines 55-56 and 80-81) *)

(** The decimal digit of the units of [n]. *)
Definition digit (n : Z) : ascii := ascii_of_nat (48 + Z.to_nat (n mod 10)).

Definition two_digits (n : Z) : string :=
  String (digit (n / 10)) (String (digit n) EmptyString).

Definition four_digits (n : Z) : string :=
  String (digit (n / 1000)) (String (digit (n / 100)) (two_digits n)).

(** The dates Python has: years 1 to 9999, a month and a day of it. *)
Definition valid_date (d : date) : Prop :=
  (1 ≤ year d ≤ 9999)%Z ∧ (1 ≤ month d ≤ 12)%Z ∧ (1 ≤ day d ≤ 31)%Z.

(** [str(d)], which is [d.isoformat()]: [YYYY-MM-DD], for a date Python
    has. *)
Definition date_str (d : date) : string :=
  four_digits (year d) +:+ "-" +:+ two_digits (month d) +:+ "-"
    +:+ two_digits (day d).

Definition one_way_stem (q : one_way_query) : string :=
  ow_origin q +:+ "_" +:+ ow_destination q +:+ "_"
    +:+ date_str (ow_outbound_date q).

Definition round_trip_stem (q : round_trip_query) : string :=
  origin q +:+ "_" +:+ destination q +:+ "_"
    +:+ date_str (outbound_date q) +:+ "_" +:+ date_str (return_date q).

(** [raw_json] and [csv_file] of the two loop bodies. *)
Definition one_way_raw_json (q : one_way_query) : string :=
  one_way_stem q +:+ ".json".
Definition one_way_csv_file (q : one_way_query) : string :=
  one_way_stem q +:+ ".csv".
Definition round_trip_raw_json (q : round_trip_query) : string :=
  round_trip_stem q +:+ ".json".
Definition round_trip_csv_file (q : round_trip_query) : string :=
  round_trip_stem q +:+ ".csv".

(** City codes without an underscore. *)
Definition plain (city : string) : bool := free_of "_" city.

(** Queries whose city codes are plain and whose dates Python has. *)
Definition good_one_way (q : one_way_query) : Prop :=
  plain (ow_origin q) = true ∧ plain (ow_destination q) = true ∧
  valid_date (ow_outbound_date q).

Definition good_round_trip (q : round_trip_query) : Prop :=
  plain (origin q) = true ∧ plain (destination q) = true ∧
  valid_date (outbound_date q) ∧ valid_date (return_date q).

(** * Properties *)

(** ** The error monad *)

Lemma bind_ok_inv {A B} (r : result A) (k : A → result B) (b : B) :
  r ≫= k = Ok b → ∃ a, r = Ok a ∧ k a = Ok b.
Proof. destruct r as [a|e]; simpl; [eauto | discriminate]. Qed.

Lemma is_ok_true {A} (r : result A) : is_ok r = true ↔ ∃ a, r = Ok a.
Proof.
  destruct r as [a|e]; simpl; split; [eauto | done | done |].
  intros [? ?]; discriminate.
Qed.

Lemma is_ok_false {A} (r : result A) : is_ok r = false ↔ ∃ e, r = Raise e.
Proof.
  destruct r as [a|e]; simpl; split; [done | | eauto | done].
  intros [? ?]; discriminate.
Qed.

(** Invert [H : (x ← r; k) = Ok b], naming the value of [r]. *)
Ltac bind_inv H x Hx :=
  apply bind_ok_inv in H; destruct H as (x & Hx & H).

(** ** The loop over the entries *)

Section collect.
Context {R : Type} (row_of : json → result R).

Lemma collect_rows_acc entries rows :
  collect_rows row_of entries rows =
  rs ← collect_rows row_of entries []; Ok (rows ++ rs).
Proof.
  revert rows. induction entries as [|e es IH]; intros rows; simpl.
  - by rewrite app_nil_r.
  - destruct (row_of e) as [r|x]; simpl; [|done].
    rewrite (IH (rows ++ [r])), (IH [r]).
    destruct (collect_rows row_of es []); simpl; [|done].
    by rewrite <- app_assoc.
Qed.

Lemma collect_rows_cons e es :
  collect_rows row_of (e :: es) [] =
  r ← row_of e; rs ← collect_rows row_of es []; Ok (r :: rs).
Proof.
  simpl. destruct (row_of e) as [r|x]; simpl; [|done].
  by rewrite collect_rows_acc.
Qed.

(** The loop returns [rows] exactly when each entry, in order, gives the
    row at the same position. *)
Lemma collect_rows_ok_iff entries rows :
  collect_rows row_of entries [] = Ok rows ↔
  Forall2 (λ e r, row_of e = Ok r) entries rows.
Proof.
  revert rows. induction entries as [|e es IH]; intros rows.
  - simpl. split.
    + intros [= <-]. constructor.
    + intros H. by inversion H.
  - rewrite collect_rows_cons. split.
    + intros H. bind_inv H r Hr. bind_inv H rs Hrs.
      injection H as <-. constructor; [done | by apply IH].
    + intros H. inversion H as [|? r ? rs Hr Hrs]; subst.
      rewrite Hr. simpl. apply IH in Hrs. by rewrite Hrs.
Qed.

(** One entry that raises makes the loop raise. *)
Lemma collect_rows_raise entries :
  Exists (λ e, is_ok (row_of e) = false) entries →
  ∃ x, collect_rows row_of entries [] = Raise x.
Proof.
  induction 1 as [e es He | e es _ [x IH]]; rewrite collect_rows_cons.
  - apply is_ok_false in He as [x ->]. by exists x.
  - destruct (row_of e) as [r|y]; simpl; [|by eexists].
    rewrite IH. by exists x.
Qed.

(** When every entry gives a row, the loop returns. *)
Lemma collect_rows_total entries :
  Forall (λ e, is_ok (row_of e) = true) entries →
  ∃ rows, collect_rows row_of entries [] = Ok rows.
Proof.
  induction 1 as [|e es He _ [rs IH]]; [by exists []|].
  rewrite collect_rows_cons. apply is_ok_true in He as [r ->].
  simpl. rewrite IH. by eexists.
Qed.

Lemma collect_rows_is_ok entries :
  is_ok (collect_rows row_of entries []) =
  forallb (λ e, is_ok (row_of e)) entries.
Proof.
  induction entries as [|e es IH]; [done|].
  rewrite collect_rows_cons. simpl.
  destruct (row_of e) as [r|x]; simpl; [|done].
  rewrite <- IH. by destruct (collect_rows row_of es []).
Qed.
End collect.

(** ** What each Python operation needs to succeed *)

Lemma py_getitem_ok v key x :
  py_getitem v key = Ok x ↔ ∃ m, v = JDict m ∧ m !! key = Some x.
Proof.
  split.
  - destruct v as [| | | | | |m]; simpl; try discriminate.
    destruct (m !! key) eqn:E; [|discriminate].
    intros [= <-]. eauto.
  - intros (m & -> & E). simpl. by rewrite E.
Qed.

Lemma py_get_ok v key dflt x :
  py_get v key dflt = Ok x ↔ ∃ m, v = JDict m ∧ x = default dflt (m !! key).
Proof.
  split.
  - destruct v as [| | | | | |m]; simpl; try discriminate.
    intros [= <-]. eauto.
  - by intros (m & -> & ->).
Qed.

Lemma py_get_dict m key dflt :
  py_get (JDict m) key dflt = Ok (default dflt (m !! key)).
Proof. done. Qed.

Lemma flight_row_ok entry : is_ok (flight_row entry) = well_formed entry.
Proof.
  unfold flight_row, well_formed, first_segment.
  destruct (py_getitem entry "flights") as [fl|] eqn:Hfl; simpl; [|done].
  apply py_getitem_ok in Hfl as (e & -> & _).
  destruct (py_getitem0 fl) as [seg|]; simpl; [|done].
  destruct seg as [| | | | | |s]; simpl; try done.
  unfold airport_field, has_airport, has_key; simpl.
  destruct (s !! "departure_airport") as [[| | | | | |dep]|]; simpl; try done.
  destruct (dep !! "id"), (dep !! "name"), (dep !! "time"); simpl; try done.
  destruct (s !! "arrival_airport") as [[| | | | | |arr]|]; simpl; try done.
  by destruct (arr !! "id"), (arr !! "name"), (arr !! "time").
Qed.

Lemma roundtrip_row_ok stamp entry :
  is_ok (roundtrip_row stamp entry) = well_formed entry.
Proof.
  unfold roundtrip_row, well_formed, first_segment.
  destruct (py_getitem entry "flights") as [fl|] eqn:Hfl; simpl; [|done].
  apply py_getitem_ok in Hfl as (e & -> & _).
  destruct (py_getitem0 fl) as [seg|]; simpl; [|done].
  destruct seg as [| | | | | |s]; simpl; try done.
  unfold airport_field, has_airport, has_key; simpl.
  destruct (s !! "departure_airport") as [[| | | | | |dep]|]; simpl; try done.
  destruct (dep !! "id"), (dep !! "name"), (dep !! "time"); simpl; try done.
  destruct (s !! "arrival_airport") as [[| | | | | |arr]|]; simpl; try done.
  by destruct (arr !! "id"), (arr !! "name"), (arr !! "time").
Qed.

(** ** What a row holds *)

(** Invert every bind of [H : ... = Ok row]. *)
Ltac binds_inv H :=
  repeat (let x := fresh "v" in let Hx := fresh "Hv" in bind_inv H x Hx).


Lemma roundtrip_row_fields stamp entry row :
  roundtrip_row stamp entry = Ok row →
  ∃ e seg, entry = JDict e ∧ first_segment entry = Ok (JDict seg) ∧
    rt_flight_number row = default JNull (seg !! "flight_number") ∧
    rt_airline row = default JNull (seg !! "airline") ∧
    rt_airplane row = default (JStr "") (seg !! "airplane") ∧
    rt_travel_class row = default (JStr "") (seg !! "travel_class") ∧
    rt_legroom row = default (JStr "") (seg !! "legroom") ∧
    total_duration_min row = default JNull (e !! "total_duration") ∧
    rt_price_usd row = default JNull (e !! "price") ∧
    trip_type row = default JNull (e !! "type") ∧
    departure_token row = default JNull (e !! "departure_token") ∧
    fetched_at row = stamp.
Proof.
  unfold roundtrip_row. intros H.
  bind_inv H fl Hfl. bind_inv H seg Hseg. bind_inv H fn Hfn.
  apply py_getitem_ok in Hfl as Hfl'. destruct Hfl' as (e & -> & He).
  apply py_get_ok in Hfn as (s & -> & ->).
  binds_inv H. injection H as <-. simpl.
  exists e, s. split; [done|]. split.
  { unfold first_segment. rewrite Hfl. exact Hseg. }
  repeat match goal with
         | Hg : py_get _ _ _ = Ok _ |- _ => injection Hg as <-
         end.
  repeat split; reflexivity.
Qed.

(** ** From the file to the rows *)

Lemma process_flight_data_loaded raw out fs data :
  fs !! raw = Some (RawJson data) →
  process_flight_data raw out fs =
  match normalize_one_way data with
  | Ok rows => (Ok rows, <[out := OneWayCsv rows]> fs)
  | Raise e => (Raise e, fs)
  end.
Proof. intros H. unfold process_flight_data, load_json. by rewrite H. Qed.

Lemma process_roundtrip_data_loaded raw out fs data :
  fs !! raw = Some (RawJson data) →
  process_roundtrip_data raw out fs =
  match normalize_roundtrip data with
  | Ok rows => (Ok rows, <[out := RoundTripCsv rows]> fs)
  | Raise e => (Raise e, fs)
  end.
Proof. intros H. unfold process_roundtrip_data, load_json. by rewrite H. Qed.

Lemma process_flight_data_result raw out fs data :
  fs !! raw = Some (RawJson data) →
  (process_flight_data raw out fs).1 = normalize_one_way data.
Proof.
  intros H. rewrite (process_flight_data_loaded _ _ _ _ H).
  by destruct (normalize_one_way data).
Qed.

Lemma process_roundtrip_data_result raw out fs data :
  fs !! raw = Some (RawJson data) →
  (process_roundtrip_data raw out fs).1 = normalize_roundtrip data.
Proof.
  intros H. rewrite (process_roundtrip_data_loaded _ _ _ _ H).
  by destruct (normalize_roundtrip data).
Qed.

Lemma all_flights_lists data best other :
  py_get data "best_flights" (JList []) = Ok (JList best) →
  py_get data "other_flights" (JList []) = Ok (JList other) →
  all_flights data = Ok (best ++ other).
Proof. unfold all_flights. by intros -> ->. Qed.

Lemma all_flights_dict data entries :
  all_flights data = Ok entries → ∃ m, data = JDict m.
Proof.
  unfold all_flights. intros H. bind_inv H b Hb.
  apply py_get_ok in Hb as (m & -> & _). eauto.
Qed.

Lemma normalize_roundtrip_dict m :
  normalize_roundtrip (JDict m) =
  entries ← all_flights (JDict m);
  collect_rows (roundtrip_row (default (JStr "") (m !! "_fetched_at"))) entries [].
Proof. done. Qed.

Lemma well_formed_forallb_flight entries :
  forallb (λ e, is_ok (flight_row e)) entries = forallb well_formed entries.
Proof. induction entries; simpl; [done|]. by rewrite flight_row_ok, IHentries. Qed.

Lemma well_formed_forallb_roundtrip stamp entries :
  forallb (λ e, is_ok (roundtrip_row stamp e)) entries = forallb well_formed entries.
Proof. induction entries; simpl; [done|]. by rewrite roundtrip_row_ok, IHentries. Qed.

(** ** The records of a document *)

(** C1 (as amended).  For a document whose [best_flights] and
    [other_flights] are lists (a missing key counting as the empty list),
    either normalizer returns rows exactly when every entry of
    [best_flights ++ other_flights] is well formed; the rows are then one
    per entry, row [i] built from entry [i] of the concatenation (no
    re-sorting, no deduplication), so there are as many rows as entries.
    The rows come as one finished list. *)
Theorem process_one_record_per_entry raw out fs data best other :
  fs !! raw = Some (RawJson data) →
  py_get data "best_flights" (JList []) = Ok (JList best) →
  py_get data "other_flights" (JList []) = Ok (JList other) →
  (∀ rows, (process_flight_data raw out fs).1 = Ok rows ↔
     Forall2 (λ entry row, flight_row entry = Ok row) (best ++ other) rows) ∧
  (∀ rows, (process_flight_data raw out fs).1 = Ok rows →
     length rows = length best + length other) ∧
  is_ok (process_flight_data raw out fs).1 = forallb well_formed (best ++ other) ∧
  ∃ stamp, py_get data "_fetched_at" (JStr "") = Ok stamp ∧
  (∀ rows, (process_roundtrip_data raw out fs).1 = Ok rows ↔
     Forall2 (λ entry row, roundtrip_row stamp entry = Ok row) (best ++ other) rows) ∧
  (∀ rows, (process_roundtrip_data raw out fs).1 = Ok rows →
     length rows = length best + length other) ∧
  is_ok (process_roundtrip_data raw out fs).1 = forallb well_formed (best ++ other).
Proof.
  intros Hfs Hbest Hother.
  pose proof (all_flights_lists _ _ _ Hbest Hother) as Hall.
  rewrite (process_flight_data_result _ _ _ _ Hfs).
  rewrite (process_roundtrip_data_result _ _ _ _ Hfs).
  destruct (all_flights_dict _ _ Hall) as [m ->].
  rewrite normalize_roundtrip_dict. unfold normalize_one_way.
  rewrite Hall. simpl.
  assert (Hlen : ∀ (R : Type) (f : json → result R) (rows : list R),
             collect_rows f (best ++ other) [] = Ok rows →
             length rows = length best + length other).
  { intros R f rows H%collect_rows_ok_iff.
    apply Forall2_length in H. by rewrite <- H, length_app. }
  split; [intros rows; apply collect_rows_ok_iff|].
  split; [apply Hlen|].
  split; [by rewrite collect_rows_is_ok, well_formed_forallb_flight|].
  eexists. split; [reflexivity|].
  split; [intros rows; apply collect_rows_ok_iff|].
  split; [apply Hlen|].
  by rewrite collect_rows_is_ok, well_formed_forallb_roundtrip.
Qed.

Lemma process_one_record_per_entry_witness :
  sample_files sample_doc !! sample_raw = Some (RawJson sample_doc) ∧
  py_get sample_doc "best_flights" (JList []) = Ok (JList [entry_A; entry_B]) ∧
  py_get sample_doc "other_flights" (JList []) = Ok (JList [entry_C]) ∧
  (∀ rows,
     (process_flight_data sample_raw sample_csv (sample_files sample_doc)).1 = Ok rows ↔
     Forall2 (λ entry row, flight_row entry = Ok row)
       ([entry_A; entry_B] ++ [entry_C]) rows) ∧
  (∀ rows,
     (process_flight_data sample_raw sample_csv (sample_files sample_doc)).1 = Ok rows →
     length rows = length [entry_A; entry_B] + length [entry_C]) ∧
  is_ok (process_flight_data sample_raw sample_csv (sample_files sample_doc)).1 =
    forallb well_formed ([entry_A; entry_B] ++ [entry_C]) ∧
  ∃ stamp, py_get sample_doc "_fetched_at" (JStr "") = Ok stamp ∧
  (∀ rows,
     (process_roundtrip_data sample_raw sample_csv (sample_files sample_doc)).1 = Ok rows ↔
     Forall2 (λ entry row, roundtrip_row stamp entry = Ok row)
       ([entry_A; entry_B] ++ [entry_C]) rows) ∧
  (∀ rows,
     (process_roundtrip_data sample_raw sample_csv (sample_files sample_doc)).1 = Ok rows →
     length rows = length [entry_A; entry_B] + length [entry_C]) ∧
  is_ok (process_roundtrip_data sample_raw sample_csv (sample_files sample_doc)).1 =
    forallb well_formed ([entry_A; entry_B] ++ [entry_C]).
Proof.
  assert (H1 : sample_files sample_doc !! sample_raw = Some (RawJson sample_doc))
    by (vm_compute; reflexivity).
  assert (H2 : py_get sample_doc "best_flights" (JList [])
               = Ok (JList [entry_A; entry_B])) by (vm_compute; reflexivity).
  assert (H3 : py_get sample_doc "other_flights" (JList [])
               = Ok (JList [entry_C])) by (vm_compute; reflexivity).
  split; [exact H1|]. split; [exact H2|]. split; [exact H3|].
  exact (process_one_record_per_entry sample_raw sample_csv
           (sample_files sample_doc) sample_doc [entry_A; entry_B] [entry_C]
           H1 H2 H3).
Defined.

(** The example of the specification: [best_flights = [A, B]] and
    [other_flights = [C]] give the rows of A, B and C, in that order. *)
Example sample_doc_rows_in_order :
  ∃ a b c,
    flight_row entry_A = Ok a ∧ flight_row entry_B = Ok b ∧
    flight_row entry_C = Ok c ∧
    process_flight_data sample_raw sample_csv (sample_files sample_doc) =
      (Ok [a; b; c], <[sample_csv := OneWayCsv [a; b; c]]> (sample_files sample_doc)).
Proof.
  destruct (flight_row entry_A) as [a|] eqn:Ha; [|by vm_compute in Ha].
  destruct (flight_row entry_B) as [b|] eqn:Hb; [|by vm_compute in Hb].
  destruct (flight_row entry_C) as [c|] eqn:Hc; [|by vm_compute in Hc].
  exists a, b, c. repeat split.
  rewrite (process_flight_data_loaded _ _ _ sample_doc) by (vm_compute; reflexivity).
  unfold normalize_one_way.
  rewrite (all_flights_lists _ [entry_A; entry_B] [entry_C])
    by (vm_compute; reflexivity).
  simpl. rewrite Ha. simpl. rewrite Hb. simpl. rewrite Hc. reflexivity.
Qed.

(** C1 as the specification words it fails: with a defective second
    entry there is no row at all, not even the row of the first entry,
    although the document has three entries. *)
Lemma one_record_per_entry_fails_on_defective_doc :
  py_get defective_doc "best_flights" (JList [])
    = Ok (JList [entry_A; entry_no_time]) ∧
  py_get defective_doc "other_flights" (JList []) = Ok (JList [entry_C]) ∧
  is_ok (flight_row entry_A) = true ∧
  process_flight_data sample_raw sample_csv (sample_files defective_doc)
    = (Raise (KeyError "time"), sample_files defective_doc) ∧
  process_roundtrip_data sample_raw sample_csv (sample_files defective_doc)
    = (Raise (KeyError "time"), sample_files defective_doc) ∧
  ¬ (∃ rows,
       (process_flight_data sample_raw sample_csv
          (sample_files defective_doc)).1 = Ok rows ∧
       length rows = 3).
Proof.
  assert (H : process_flight_data sample_raw sample_csv (sample_files defective_doc)
              = (Raise (KeyError "time"), sample_files defective_doc)).
  { rewrite (process_flight_data_loaded _ _ _ defective_doc)
      by (vm_compute; reflexivity).
    replace (normalize_one_way defective_doc)
      with (Raise (A := list flat_record) (KeyError "time"))
      by (vm_compute; reflexivity).
    reflexivity. }
  split; [vm_compute; reflexivity|].
  split; [vm_compute; reflexivity|].
  split; [vm_compute; reflexivity|].
  split; [exact H|].
  split.
  - rewrite (process_roundtrip_data_loaded _ _ _ defective_doc)
      by (vm_compute; reflexivity).
    replace (normalize_roundtrip defective_doc)
      with (Raise (A := list roundtrip_record) (KeyError "time"))
      by (vm_compute; reflexivity).
    reflexivity.
  - rewrite H. simpl. intros (rows & Hrows & _). discriminate.
Qed.

(** ** Defective entries *)

Lemma lacks_has_key a key : lacks (JDict a) key → has_key a key = false.
Proof. intros (m & [= <-] & H). unfold has_key. by rewrite H. Qed.

Lemma airport_defect_has_airport s airport :
  airport_defect (JDict s) airport → has_airport s airport = false.
Proof.
  unfold has_airport. intros [(m & [= <-] & ->) | (a & Ha & Hlack)]; [done|].
  apply py_getitem_ok in Ha as (m & [= <-] & ->).
  destruct a as [| | | | | |am]; try done.
  destruct Hlack as [H | [H | H]]; apply lacks_has_key in H; rewrite H;
    simpl; by rewrite ?andb_false_r.
Qed.

Lemma airport_defect_dict seg airport :
  airport_defect seg airport → ∃ s, seg = JDict s.
Proof.
  intros [(m & -> & _) | (a & Ha & _)]; [eauto|].
  apply py_getitem_ok in Ha as (m & -> & _). eauto.
Qed.

(** A defective entry is not well formed: its row raises. *)
Lemma entry_defect_not_well_formed entry :
  entry_defect entry → well_formed entry = false.
Proof.
  unfold well_formed. intros [(m & -> & H) | (seg & -> & Hseg)].
  - unfold first_segment. simpl. by rewrite H.
  - destruct Hseg as [H | H];
      destruct (airport_defect_dict _ _ H) as [s ->];
      apply airport_defect_has_airport in H; rewrite H;
      by rewrite ?andb_false_r.
Qed.

(** The entries of either list are among the entries of the loop. *)
Lemma all_flights_contains data entries es (P : json → Prop) :
  py_get data "best_flights" (JList []) = Ok (JList entries) ∨
  py_get data "other_flights" (JList []) = Ok (JList entries) →
  all_flights data = Ok es →
  Exists P entries → Exists P es.
Proof.
  unfold all_flights. intros Hkey Hall Hex.
  bind_inv Hall b Hb. bind_inv Hall o Ho.
  destruct b as [| | | |sb|lb|]; try discriminate;
    destruct o as [| | | |so|lo|]; try discriminate.
  - destruct Hkey as [Hkey | Hkey]; congruence.
  - injection Hall as <-. apply Exists_app.
    destruct Hkey as [Hkey | Hkey]; [left | right]; congruence.
Qed.

Lemma normalize_raises_on_defect data entries :
  py_get data "best_flights" (JList []) = Ok (JList entries) ∨
  py_get data "other_flights" (JList []) = Ok (JList entries) →
  Exists entry_defect entries →
  (∃ x, normalize_one_way data = Raise x) ∧
  (∃ x, normalize_roundtrip data = Raise x).
Proof.
  intros Hkey Hbad.
  assert (∃ m, data = JDict m) as [m ->].
  { destruct Hkey as [H | H]; apply py_get_ok in H as (m & -> & _); eauto. }
  rewrite normalize_roundtrip_dict. unfold normalize_one_way.
  destruct (all_flights (JDict m)) as [es|x] eqn:Hall; simpl; [|by eauto].
  pose proof (all_flights_contains _ _ _ _ Hkey Hall Hbad) as Hes.
  split; apply collect_rows_raise; (eapply Exists_impl; [exact Hes|]);
    intros e He; simpl.
  - rewrite flight_row_ok. by apply entry_defect_not_well_formed.
  - rewrite roundtrip_row_ok. by apply entry_defect_not_well_formed.
Qed.

(** C2.  If an entry of [best_flights] or of [other_flights] has no
    ["flights"], or its first segment has no [departure_airport] or
    [arrival_airport], or one of these has no [id], [name] or [time], then
    normalising the document raises, whichever normalizer is used: there
    are no rows, not even for the entries before the defective one, and no
    table is written. *)
Theorem defective_entry_fails_document raw out fs data entries :
  fs !! raw = Some (RawJson data) →
  py_get data "best_flights" (JList []) = Ok (JList entries) ∨
  py_get data "other_flights" (JList []) = Ok (JList entries) →
  Exists entry_defect entries →
  (∃ x, process_flight_data raw out fs = (Raise x, fs)) ∧
  (∃ x, process_roundtrip_data raw out fs = (Raise x, fs)).
Proof.
  intros Hfs Hkey Hbad.
  rewrite (process_flight_data_loaded _ _ _ _ Hfs).
  rewrite (process_roundtrip_data_loaded _ _ _ _ Hfs).
  destruct (normalize_raises_on_defect _ _ Hkey Hbad) as [[x ->] [y ->]].
  eauto.
Qed.

Lemma defective_entry_fails_document_witness :
  sample_files defective_doc !! sample_raw = Some (RawJson defective_doc) ∧
  (py_get defective_doc "best_flights" (JList [])
     = Ok (JList [entry_A; entry_no_time]) ∨
   py_get defective_doc "other_flights" (JList [])
     = Ok (JList [entry_A; entry_no_time])) ∧
  Exists entry_defect [entry_A; entry_no_time] ∧
  (∃ x, process_flight_data sample_raw sample_csv (sample_files defective_doc)
        = (Raise x, sample_files defective_doc)) ∧
  (∃ x, process_roundtrip_data sample_raw sample_csv (sample_files defective_doc)
        = (Raise x, sample_files defective_doc)).
Proof.
  assert (H1 : sample_files defective_doc !! sample_raw
               = Some (RawJson defective_doc)) by (vm_compute; reflexivity).
  assert (H2 : py_get defective_doc "best_flights" (JList [])
                 = Ok (JList [entry_A; entry_no_time]) ∨
               py_get defective_doc "other_flights" (JList [])
                 = Ok (JList [entry_A; entry_no_time]))
    by (left; vm_compute; reflexivity).
  assert (H3 : Exists entry_defect [entry_A; entry_no_time]).
  { apply Exists_cons_tl, Exists_cons_hd.
    right. eexists. split; [vm_compute; reflexivity|].
    left. right. eexists. split; [vm_compute; reflexivity|].
    right. right. eexists. split; [reflexivity|]. vm_compute. reflexivity. }
  split; [exact H1|]. split; [exact H2|]. split; [exact H3|].
  exact (defective_entry_fails_document sample_raw sample_csv
           (sample_files defective_doc) defective_doc
           [entry_A; entry_no_time] H1 H2 H3).
Defined.

(** The example of the specification: a segment without
    [departure_airport.time] fails its document with [KeyError]. *)
Example missing_departure_time_fails :
  entry_defect entry_no_time ∧
  process_flight_data sample_raw sample_csv (sample_files defective_doc)
    = (Raise (KeyError "time"), sample_files defective_doc).
Proof.
  split.
  - right. eexists. split; [vm_compute; reflexivity|].
    left. right. eexists. split; [vm_compute; reflexivity|].
    right. right. eexists. split; [reflexivity|]. vm_compute. reflexivity.
  - rewrite (process_flight_data_loaded _ _ _ defective_doc)
      by (vm_compute; reflexivity).
    replace (normalize_one_way defective_doc)
      with (Raise (A := list flat_record) (KeyError "time"))
      by (vm_compute; reflexivity).
    reflexivity.
Qed.

(** ** Durations *)



(** The example of the specification: no [total_duration] and a first
    segment of 125 minutes give [duration_min = 125]. *)
Example one_way_duration_falls_back_to_segment :
  ∃ row, flight_row entry_B = Ok row ∧ duration_min row = JInt 125.
Proof. eexists. split; [vm_compute; reflexivity | reflexivity]. Qed.



(** A [null] entry-level duration wins over a segment of 125 minutes. *)
Example one_way_null_duration_is_kept :
  ∃ row, flight_row entry_C = Ok row ∧ duration_min row = JNull.
Proof. eexists. split; [vm_compute; reflexivity | reflexivity]. Qed.

(** The round-trip duration is the entry's own, whatever the segment says. *)
Lemma roundtrip_duration_entry_level stamp e row :
  roundtrip_row stamp (JDict e) = Ok row →
  total_duration_min row = default JNull (e !! "total_duration").
Proof.
  intros H. apply roundtrip_row_fields in H
    as (e' & seg & [= <-] & _ & _ & _ & _ & _ & _ & Hd & _).
  exact Hd.
Qed.

(** C4.  A round-trip entry without [total_duration] gives a row whose
    [total_duration_min] is [None]; the duration of the first segment is
    not consulted. *)
Theorem roundtrip_duration_no_fallback stamp e row :
  e !! "total_duration" = None →
  roundtrip_row stamp (JDict e) = Ok row →
  total_duration_min row = JNull.
Proof.
  intros He H. apply roundtrip_duration_entry_level in H. by rewrite H, He.
Qed.

Lemma roundtrip_duration_no_fallback_witness :
  ∃ e row,
    entry_B = JDict e ∧ e !! "total_duration" = None ∧
    roundtrip_row (JStr "2025-02-20T10:15:00") (JDict e) = Ok row ∧
    total_duration_min row = JNull.
Proof.
  eexists.
  destruct (roundtrip_row (JStr "2025-02-20T10:15:00") entry_B) as [row|] eqn:H;
    [|by vm_compute in H].
  exists row. split; [reflexivity|].
  assert (He : (list_to_map [("flights", JList [sample_segment "AI 202"]);
                             ("price", JInt 75)] : gmap string json)
               !! "total_duration" = None) by (vm_compute; reflexivity).
  split; [exact He|]. split; [exact H|].
  exact (roundtrip_duration_no_fallback _ _ row He H).
Defined.

(** The two normalizers differ on the same entry: the first segment lasts
    125 minutes and the entry has no [total_duration]. *)
Example duration_asymmetry :
  ∃ row1 row2,
    flight_row entry_B = Ok row1 ∧
    roundtrip_row (JStr "2025-02-20T10:15:00") entry_B = Ok row2 ∧
    duration_min row1 = JInt 125 ∧ total_duration_min row2 = JNull.
Proof.
  do 2 eexists.
  split; [vm_compute; reflexivity|].
  split; [vm_compute; reflexivity|].
  split; reflexivity.
Qed.

(** ** Missing lists *)




(** The example of the specification: with both lists absent the result
    is the empty list of rows, and an empty table is written. *)
Example both_lists_absent :
  process_flight_data sample_raw sample_csv (sample_files empty_doc)
    = (Ok [], <[sample_csv := OneWayCsv []]> (sample_files empty_doc)) ∧
  process_roundtrip_data sample_raw sample_csv (sample_files empty_doc)
    = (Ok [], <[sample_csv := RoundTripCsv []]> (sample_files empty_doc)).
Proof.
  rewrite (process_flight_data_loaded _ _ _ empty_doc) by (vm_compute; reflexivity).
  rewrite (process_roundtrip_data_loaded _ _ _ empty_doc) by (vm_compute; reflexivity).
  replace (normalize_one_way empty_doc) with (Ok (@nil flat_record))
    by (vm_compute; reflexivity).
  replace (normalize_roundtrip empty_doc) with (Ok (@nil roundtrip_record))
    by (vm_compute; reflexivity).
  done.
Qed.

(** ** The fetch timestamp *)

(** Every row of a document carries the document's [_fetched_at] (the
    empty string when the document has none). *)
Lemma normalize_roundtrip_fetched_at m rows :
  normalize_roundtrip (JDict m) = Ok rows →
  Forall (λ row, fetched_at row = default (JStr "") (m !! "_fetched_at")) rows.
Proof.
  rewrite normalize_roundtrip_dict. intros H. bind_inv H entries Hall.
  apply collect_rows_ok_iff in H. clear Hall.
  induction H as [|e row es rs Hrow _ IH]; [constructor|].
  constructor; [|exact IH].
  by apply roundtrip_row_fields in Hrow
    as (? & ? & _ & _ & _ & _ & _ & _ & _ & _ & _ & _ & _ & ->).
Qed.

(** C9.  The timestamp that [fetch_roundtrip_data_raw] puts into the
    document it saves is the [fetched_at] of every row that
    [process_roundtrip_data] makes from that file: all rows of one document
    carry the same value, the one set at fetch time. *)
Theorem fetched_at_propagates results now raw out fs fs1 fs2 rows :
  fetch_roundtrip_data_raw results now raw fs = (Ok (), fs1) →
  process_roundtrip_data raw out fs1 = (Ok rows, fs2) →
  (∃ doc, fs1 !! raw = Some (RawJson doc) ∧
          py_get doc "_fetched_at" (JStr "") = Ok (JStr now)) ∧
  Forall (λ row, fetched_at row = JStr now) rows.
Proof.
  unfold fetch_roundtrip_data_raw. intros Hfetch Hproc.
  destruct results as [| | | | | |m]; simpl in Hfetch; try discriminate.
  injection Hfetch as <-.
  set (doc := JDict (<["_fetched_at" := JStr now]> m)) in *.
  assert (Hfs : <[raw := RawJson doc]> fs !! raw = Some (RawJson doc))
    by apply lookup_insert_eq.
  split.
  - exists doc. split; [exact Hfs|].
    unfold doc. rewrite py_get_dict. by rewrite lookup_insert_eq.
  - rewrite (process_roundtrip_data_loaded _ _ _ _ Hfs) in Hproc.
    destruct (normalize_roundtrip doc) as [rs|] eqn:Hnorm; [|discriminate].
    injection Hproc as <- _.
    apply normalize_roundtrip_fetched_at in Hnorm.
    by rewrite lookup_insert_eq in Hnorm.
Qed.

Lemma fetched_at_propagates_witness :
  ∃ fs1 fs2 rows,
    fetch_roundtrip_data_raw sample_doc "2025-02-20T10:15:00" sample_raw ∅
      = (Ok (), fs1) ∧
    process_roundtrip_data sample_raw sample_csv fs1 = (Ok rows, fs2) ∧
    length rows = 3 ∧
    (∃ doc, fs1 !! sample_raw = Some (RawJson doc) ∧
            py_get doc "_fetched_at" (JStr "") = Ok (JStr "2025-02-20T10:15:00")) ∧
    Forall (λ row, fetched_at row = JStr "2025-02-20T10:15:00") rows.
Proof.
  do 3 eexists.
  match goal with
  | |- ?A ∧ ?B ∧ _ =>
      assert (H1 : A) by (vm_compute; reflexivity);
      assert (H2 : B) by (vm_compute; reflexivity)
  end.
  split; [exact H1|]. split; [exact H2|]. split; [reflexivity|].
  exact (fetched_at_propagates _ _ _ _ _ _ _ _ H1 H2).
Defined.

(** ** Dates *)

Lemma date_compare_antisym a b :
  date_compare b a = CompOpp (date_compare a b).
Proof.
  unfold date_compare.
  rewrite (Z.compare_antisym (year a) (year b)),
    (Z.compare_antisym (month a) (month b)),
    (Z.compare_antisym (day a) (day b)).
  by destruct (year a ?= year b)%Z, (month a ?= month b)%Z,
       (day a ?= day b)%Z.
Qed.

Lemma date_compare_refl a : date_compare a a = Eq.
Proof. unfold date_compare. by rewrite !Z.compare_refl. Qed.

(** [ret <= dep] is false exactly when [dep] is strictly before [ret]. *)
Lemma date_leb_false ret dep : date_leb ret dep = false ↔ date_lt dep ret.
Proof.
  unfold date_leb, date_lt. rewrite (date_compare_antisym ret dep).
  by destruct (date_compare ret dep).
Qed.

Lemma date_lt_irrefl a : ¬ date_lt a a.
Proof. unfold date_lt. by rewrite date_compare_refl. Qed.

(** ** The loops as comprehensions *)

Lemma for_each_steps {A} (xs : list A) (g : A → list step) body tr :
  (∀ x tr', body x tr' = tr' ++ g x) →
  for_each xs body tr = tr ++ (xs ≫= g).
Proof.
  intros Hbody. revert tr. induction xs as [|x xs IH]; intros tr.
  - simpl. by rewrite app_nil_r.
  - cbn [for_each]. by rewrite IH, Hbody, bind_cons, app_assoc.
Qed.

Lemma round_trip_loop_steps cities dd rd tr :
  round_trip_loop cities dd rd tr = tr ++ round_trip_steps cities dd rd.
Proof.
  unfold round_trip_loop, round_trip_steps.
  apply for_each_steps. intros f tr1.
  apply for_each_steps. intros t tr2.
  case_bool_decide; [done|].
  apply for_each_steps. intros d tr3.
  apply for_each_steps. intros r tr4.
  by destruct (date_leb r d).
Qed.

Lemma one_way_loop_steps cities dd tr :
  one_way_loop cities dd tr = tr ++ one_way_steps cities dd.
Proof.
  unfold one_way_loop, one_way_steps.
  apply for_each_steps. intros f tr1.
  apply for_each_steps. intros t tr2.
  case_bool_decide; [done|].
  by apply for_each_steps.
Qed.

Lemma main_steps m cities dd rd :
  main m cities dd rd =
  (if runs_one_way m then one_way_steps cities dd else []) ++
  (if runs_round_trip m && py_truthy rd then round_trip_steps cities dd rd else []).
Proof.
  unfold main. rewrite round_trip_loop_steps, one_way_loop_steps.
  destruct (runs_one_way m), (runs_round_trip m && py_truthy rd); simpl;
    by rewrite ?app_nil_r.
Qed.

(** ** Comprehensions: projections and filters *)

Lemma omap_bind {A B C} (f : B → option C) (g : A → list B) (l : list A) :
  omap f (l ≫= g) = l ≫= (λ x, omap f (g x)).
Proof.
  induction l as [|x l IH]; [done|].
  by rewrite !bind_cons, omap_app, IH.
Qed.

Lemma filter_bind {A B} (P : B → Prop) `{!∀ y, Decision (P y)}
    (g : A → list B) (l : list A) :
  filter P (l ≫= g) = l ≫= (λ x, filter P (g x)).
Proof.
  induction l as [|x l IH]; [done|].
  by rewrite !bind_cons, filter_app, IH.
Qed.

Lemma bind_all_nil {A B} (g : A → list B) (l : list A) :
  (∀ x, g x = []) → l ≫= g = [].
Proof.
  intros Hg. induction l as [|x l IH]; [done|].
  by rewrite bind_cons, Hg, IH.
Qed.

Lemma filter_one {A} (P : A → Prop) `{!∀ y, Decision (P y)} (x : A) :
  filter P [x] = if decide (P x) then [x] else [].
Proof. rewrite filter_cons, filter_nil. by destruct (decide (P x)). Qed.

(** The queries of the round-trip loops are the combinations that pass the
    two filters, in the order of the Cartesian product. *)
Lemma round_trip_queries_steps cities dd rd :
  round_trip_queries (round_trip_steps cities dd rd) =
  filter kept (combinations cities dd rd).
Proof.
  unfold round_trip_queries, round_trip_steps, combinations.
  rewrite omap_bind, filter_bind. apply list_bind_ext; [|done]. intros f.
  rewrite omap_bind, filter_bind. apply list_bind_ext; [|done]. intros t.
  case_bool_decide as Hft.
  - simpl. symmetry. rewrite filter_bind. apply bind_all_nil. intros d.
    rewrite filter_bind. apply bind_all_nil. intros r.
    rewrite filter_one. rewrite decide_False; [done|].
    unfold kept. simpl. tauto.
  - rewrite omap_bind, filter_bind. apply list_bind_ext; [|done]. intros d.
    rewrite omap_bind, filter_bind. apply list_bind_ext; [|done]. intros r.
    rewrite filter_one.
    destruct (date_leb r d) eqn:Hrd; simpl.
    + rewrite decide_False; [done|]. unfold kept. simpl.
      intros [_ Hlt]. apply date_leb_false in Hlt. congruence.
    + rewrite decide_True; [done|]. unfold kept. simpl.
      split; [done|]. by apply date_leb_false.
Qed.

Lemma date_skips_steps cities dd rd :
  date_skips (round_trip_steps cities dd rd) =
  filter date_skipped (combinations cities dd rd).
Proof.
  unfold date_skips, round_trip_steps, combinations.
  rewrite omap_bind, filter_bind. apply list_bind_ext; [|done]. intros f.
  rewrite omap_bind, filter_bind. apply list_bind_ext; [|done]. intros t.
  case_bool_decide as Hft.
  - simpl. symmetry. rewrite filter_bind. apply bind_all_nil. intros d.
    rewrite filter_bind. apply bind_all_nil. intros r.
    rewrite filter_one. rewrite decide_False; [done|].
    unfold date_skipped. simpl. tauto.
  - rewrite omap_bind, filter_bind. apply list_bind_ext; [|done]. intros d.
    rewrite omap_bind, filter_bind. apply list_bind_ext; [|done]. intros r.
    rewrite filter_one.
    destruct (date_leb r d) eqn:Hrd; simpl.
    + rewrite decide_True; [done|]. unfold date_skipped. by simpl.
    + rewrite decide_False; [done|]. unfold date_skipped. simpl.
      intros [_ ?]. congruence.
Qed.

Lemma one_way_steps_no_round_trip cities dd :
  round_trip_queries (one_way_steps cities dd) = [] ∧
  date_skips (one_way_steps cities dd) = [].
Proof.
  unfold round_trip_queries, date_skips, one_way_steps.
  split; rewrite omap_bind; apply bind_all_nil; intros f;
    rewrite omap_bind; apply bind_all_nil; intros t;
    (case_bool_decide; [done|]);
    rewrite omap_bind; by apply bind_all_nil.
Qed.

Lemma combinations_no_return cities dd : combinations cities dd [] = [].
Proof.
  unfold combinations.
  apply bind_all_nil; intros f. apply bind_all_nil; intros t.
  by apply bind_all_nil.
Qed.

(** The round-trip queries of a whole run. *)
Lemma main_round_trip_queries m cities dd rd :
  round_trip_queries (main m cities dd rd) =
  if runs_round_trip m then filter kept (combinations cities dd rd) else [].
Proof.
  rewrite main_steps. unfold round_trip_queries at 1. rewrite omap_app.
  fold (round_trip_queries (if runs_one_way m then one_way_steps cities dd else [])).
  replace (round_trip_queries (if runs_one_way m then one_way_steps cities dd else []))
    with (@nil round_trip_query)
    by (destruct (runs_one_way m); [by rewrite (proj1 (one_way_steps_no_round_trip _ _))|done]).
  simpl. destruct (runs_round_trip m); simpl; [|done].
  destruct rd as [|r rd]; simpl.
  - by rewrite combinations_no_return.
  - apply round_trip_queries_steps.
Qed.

Lemma main_date_skips m cities dd rd :
  date_skips (main m cities dd rd) =
  if runs_round_trip m then filter date_skipped (combinations cities dd rd) else [].
Proof.
  rewrite main_steps. unfold date_skips at 1. rewrite omap_app.
  fold (date_skips (if runs_one_way m then one_way_steps cities dd else [])).
  replace (date_skips (if runs_one_way m then one_way_steps cities dd else []))
    with (@nil round_trip_query)
    by (destruct (runs_one_way m); [by rewrite (proj2 (one_way_steps_no_round_trip _ _))|done]).
  simpl. destruct (runs_round_trip m); simpl; [|done].
  destruct rd as [|r rd]; simpl.
  - by rewrite combinations_no_return.
  - apply date_skips_steps.
Qed.

(** ** The Cartesian product *)

Lemma elem_of_combinations q cities dd rd :
  q ∈ combinations cities dd rd ↔
  origin q ∈ cities ∧ destination q ∈ cities ∧
  outbound_date q ∈ dd ∧ return_date q ∈ rd.
Proof.
  unfold combinations. split.
  - intros (f & (t & (d & (r & Hq & Hr)%list_elem_of_bind & Hd)%list_elem_of_bind
                  & Ht)%list_elem_of_bind & Hf)%list_elem_of_bind.
    apply list_elem_of_singleton in Hq as ->. by simpl.
  - destruct q as [f t d r]. simpl. intros (Hf & Ht & Hd & Hr).
    apply list_elem_of_bind. exists f. split; [|done].
    apply list_elem_of_bind. exists t. split; [|done].
    apply list_elem_of_bind. exists d. split; [|done].
    apply list_elem_of_bind. exists r. split; [|done].
    by apply list_elem_of_singleton.
Qed.

(** Without repeated cities or dates no combination comes twice. *)
Lemma NoDup_combinations cities dd rd :
  NoDup cities → NoDup dd → NoDup rd → NoDup (combinations cities dd rd).
Proof.
  intros Hc Hd Hr. unfold combinations.
  apply NoDup_bind; [|intros f _|done].
  { intros f1 f2 q _ _ H1 H2.
    apply list_elem_of_bind in H1 as (? & (? & (? & ->%list_elem_of_singleton
      & _)%list_elem_of_bind & _)%list_elem_of_bind & _).
    apply list_elem_of_bind in H2 as (? & (? & (? & [=]%list_elem_of_singleton
      & _)%list_elem_of_bind & _)%list_elem_of_bind & _).
    done. }
  apply NoDup_bind; [|intros t _|done].
  { intros t1 t2 q _ _ H1 H2.
    apply list_elem_of_bind in H1 as (? & (? & ->%list_elem_of_singleton
      & _)%list_elem_of_bind & _).
    apply list_elem_of_bind in H2 as (? & (? & [=]%list_elem_of_singleton
      & _)%list_elem_of_bind & _).
    done. }
  apply NoDup_bind; [|intros d _|done].
  { intros d1 d2 q _ _ H1 H2.
    apply list_elem_of_bind in H1 as (? & ->%list_elem_of_singleton & _).
    apply list_elem_of_bind in H2 as (? & [=]%list_elem_of_singleton & _).
    done. }
  apply NoDup_bind; [|intros r _; apply NoDup_singleton|done].
  intros r1 r2 q _ _ ->%list_elem_of_singleton [=]%list_elem_of_singleton.
  done.
Qed.

(** ** Counting *)

Lemma length_bind_const {A B} (g : A → list B) (l : list A) (k : nat) :
  (∀ x, x ∈ l → length (g x) = k) → length (l ≫= g) = length l * k.
Proof.
  induction l as [|x l IH]; intros Hg; [done|].
  rewrite bind_cons, length_app, IH, Hg; simpl.
  - done.
  - by left.
  - intros y Hy. apply Hg. by right.
Qed.

(** A combination with two different cities is either kept or dropped for
    its dates. *)
Lemma length_kept_skipped (l : list round_trip_query) :
  length (filter kept l) + length (filter date_skipped l) =
  length (filter distinct_cities l).
Proof.
  induction l as [|q l IH]; [done|].
  rewrite !filter_cons.
  destruct (decide (distinct_cities q)) as [Hne|Heq].
  - destruct (decide (date_leb (return_date q) (outbound_date q) = true))
      as [E|E].
    + rewrite (decide_False (P := kept q)).
      2:{ intros [_ Hlt%date_leb_false]. congruence. }
      rewrite (decide_True (P := date_skipped q)) by done. simpl. lia.
    + apply not_true_is_false in E.
      rewrite (decide_True (P := kept q)) by (split; [done|by apply date_leb_false]).
      rewrite (decide_False (P := date_skipped q)).
      2:{ intros [_ ?]. congruence. }
      simpl. lia.
  - rewrite (decide_False (P := kept q)) by (intros [? _]; done).
    rewrite (decide_False (P := date_skipped q)) by (intros [? _]; done).
    done.
Qed.

(** In a list without repetition every element has [length l - 1] others. *)
Lemma length_others (l : list string) (f : string) :
  NoDup l → f ∈ l → length (filter (λ t, f ≠ t) l) = length l - 1.
Proof.
  induction 1 as [|x l Hx Hl IH]; intros Hf; [by apply elem_of_nil in Hf|].
  rewrite filter_cons. destruct (decide (f ≠ x)) as [Hne|Heq]; simpl.
  - apply elem_of_cons in Hf as [?|Hf]; [done|].
    rewrite IH by done. destruct l; [by apply elem_of_nil in Hf|simpl; lia].
  - assert (f = x) as -> by (by destruct (decide (f = x)); [|exfalso; auto]).
    rewrite Nat.sub_0_r. f_equal.
    clear IH Hf Heq Hl. induction l as [|y l IH]; [done|].
    rewrite filter_cons_True.
    + f_equal. apply IH. intros ?. apply Hx. by right.
    + intros ->. apply Hx. by left.
Qed.

Lemma length_distinct_combinations cities dd rd :
  NoDup cities →
  length (filter distinct_cities (combinations cities dd rd)) =
  size_bound cities dd rd.
Proof.
  intros Hnd. unfold combinations, size_bound.
  set (K := length dd * length rd).
  assert (Hinner : ∀ f t,
    length (dd ≫= (λ d, rd ≫= (λ r,
      [{| origin := f; destination := t;
          outbound_date := d; return_date := r |}]))) = K).
  { intros f t. apply length_bind_const. intros d _.
    rewrite (length_bind_const _ _ 1); [lia|done]. }
  assert (Hrow : ∀ f (ts : list string),
    length (filter distinct_cities (ts ≫= (λ t, dd ≫= (λ d, rd ≫= (λ r,
      [{| origin := f; destination := t;
          outbound_date := d; return_date := r |}])))))
    = length (filter (λ t, f ≠ t) ts) * K).
  { intros f ts. induction ts as [|t ts IH]; [done|].
    rewrite bind_cons, filter_app, length_app, IH, filter_cons.
    assert (Hall : ∀ q, q ∈ dd ≫= (λ d, rd ≫= (λ r,
              [{| origin := f; destination := t;
                  outbound_date := d; return_date := r |}])) →
              origin q = f ∧ destination q = t).
    { intros q (d & (r & ->%list_elem_of_singleton & _)%list_elem_of_bind
                & _)%list_elem_of_bind. done. }
    destruct (decide (f ≠ t)) as [Hne|Heq]; simpl.
    - f_equal. rewrite <- (Hinner f t). f_equal.
      generalize Hall. generalize (dd ≫= (λ d, rd ≫= (λ r,
              [{| origin := f; destination := t;
                  outbound_date := d; return_date := r |}]))).
      intros l. induction l as [|q l IHl]; intros Hl; [done|].
      rewrite filter_cons_True.
      + f_equal. apply IHl. intros q' Hq'. apply Hl. by right.
      + unfold distinct_cities. destruct (Hl q) as [-> ->]; [by left|done].
    - replace (filter distinct_cities _) with (@nil round_trip_query); [done|].
      symmetry. generalize Hall. generalize (dd ≫= (λ d, rd ≫= (λ r,
              [{| origin := f; destination := t;
                  outbound_date := d; return_date := r |}]))).
      intros l. induction l as [|q l IHl]; intros Hl; [done|].
      rewrite filter_cons_False.
      + apply IHl. intros q' Hq'. apply Hl. by right.
      + unfold distinct_cities. destruct (Hl q) as [-> ->]; [by left|].
        intros Hne. apply Heq. exact Hne. }
  rewrite filter_bind.
  rewrite (length_bind_const _ _ ((length cities - 1) * K)).
  - unfold K. lia.
  - intros f Hf. rewrite Hrow. by rewrite length_others.
Qed.

(** ** The queries of a run *)

Lemma round_trip_steps_no_one_way cities dd rd :
  one_way_queries (round_trip_steps cities dd rd) = [].
Proof.
  unfold one_way_queries, round_trip_steps.
  rewrite omap_bind; apply bind_all_nil; intros f.
  rewrite omap_bind; apply bind_all_nil; intros t.
  case_bool_decide; [done|].
  rewrite omap_bind; apply bind_all_nil; intros d.
  rewrite omap_bind; apply bind_all_nil; intros r.
  by destruct (date_leb r d).
Qed.

Lemma elem_of_one_way_steps q cities dd :
  q ∈ one_way_queries (one_way_steps cities dd) ↔
  ow_origin q ∈ cities ∧ ow_destination q ∈ cities ∧
  ow_outbound_date q ∈ dd ∧ ow_origin q ≠ ow_destination q.
Proof.
  unfold one_way_queries, one_way_steps. rewrite list_elem_of_omap. split.
  - intros (s & Hs & Hq).
    apply list_elem_of_bind in Hs as (f & Hs & Hf).
    apply list_elem_of_bind in Hs as (t & Hs & Ht).
    case_bool_decide as Hft.
    + apply list_elem_of_singleton in Hs as ->. discriminate.
    + apply list_elem_of_bind in Hs as (d & ->%list_elem_of_singleton & Hd).
      injection Hq as <-. by simpl.
  - destruct q as [f t d]. simpl. intros (Hf & Ht & Hd & Hne).
    exists (OneWay {| ow_origin := f; ow_destination := t;
                      ow_outbound_date := d |}).
    split; [|reflexivity].
    apply list_elem_of_bind. exists f. split; [|done].
    apply list_elem_of_bind. exists t. split; [|done].
    rewrite bool_decide_eq_false_2 by done.
    apply list_elem_of_bind. exists d. split; [|done].
    by apply list_elem_of_singleton.
Qed.

Lemma main_one_way_queries m cities dd rd :
  one_way_queries (main m cities dd rd) =
  if runs_one_way m then one_way_queries (one_way_steps cities dd) else [].
Proof.
  rewrite main_steps. unfold one_way_queries at 1. rewrite omap_app.
  fold (one_way_queries (if runs_round_trip m && py_truthy rd
                         then round_trip_steps cities dd rd else [])).
  replace (one_way_queries (if runs_round_trip m && py_truthy rd
                            then round_trip_steps cities dd rd else []))
    with (@nil one_way_query)
    by (destruct (runs_round_trip m && py_truthy rd);
        [by rewrite round_trip_steps_no_one_way|done]).
  rewrite app_nil_r. by destruct (runs_one_way m).
Qed.

(** C5.  Whatever the mode, the cities and the dates, no query of a run,
    one-way or round-trip, goes from a city to itself. *)
Theorem no_query_to_the_same_city m cities dd rd :
  Forall (λ q, ow_origin q ≠ ow_destination q)
    (one_way_queries (main m cities dd rd)) ∧
  Forall (λ q, origin q ≠ destination q)
    (round_trip_queries (main m cities dd rd)).
Proof.
  split; apply Forall_forall; intros q Hq.
  - rewrite main_one_way_queries in Hq. destruct (runs_one_way m).
    + by apply elem_of_one_way_steps in Hq as (_ & _ & _ & Hne).
    + by apply elem_of_nil in Hq.
  - rewrite main_round_trip_queries in Hq. destruct (runs_round_trip m).
    + by apply list_elem_of_filter in Hq as [[Hne _] _].
    + by apply elem_of_nil in Hq.
Qed.

(** C6.  Every round-trip query of a run returns strictly after it leaves.
    The queries are exactly the combinations of two different cities whose
    return date is after the outbound date; a combination whose return date
    is on or before the outbound date leaves a [SkipDates] step and nothing
    else: no query, and the run goes on. *)
Theorem return_strictly_after_outbound m cities dd rd :
  Forall (λ q, date_lt (outbound_date q) (return_date q) ∧
               outbound_date q ≠ return_date q ∧
               date_leb (return_date q) (outbound_date q) = false)
    (round_trip_queries (main m cities dd rd)) ∧
  (∀ q, q ∈ round_trip_queries (main m cities dd rd) ↔
        runs_round_trip m = true ∧ q ∈ combinations cities dd rd ∧
        origin q ≠ destination q ∧
        date_lt (outbound_date q) (return_date q)) ∧
  (∀ q, q ∈ date_skips (main m cities dd rd) ↔
        runs_round_trip m = true ∧ q ∈ combinations cities dd rd ∧
        origin q ≠ destination q ∧
        date_leb (return_date q) (outbound_date q) = true) ∧
  (∀ q, date_leb (return_date q) (outbound_date q) = true →
        q ∉ round_trip_queries (main m cities dd rd)).
Proof.
  assert (Hin : ∀ q, q ∈ round_trip_queries (main m cities dd rd) ↔
        runs_round_trip m = true ∧ q ∈ combinations cities dd rd ∧
        origin q ≠ destination q ∧
        date_lt (outbound_date q) (return_date q)).
  { intros q. rewrite main_round_trip_queries. destruct (runs_round_trip m).
    - rewrite list_elem_of_filter. unfold kept. tauto.
    - rewrite elem_of_nil. split; [done|]. by intros [? _]. }
  split; [|split; [exact Hin|split]].
  - apply Forall_forall. intros q (_ & _ & _ & Hlt)%Hin.
    split; [done|]. split; [|by apply date_leb_false].
    intros Heq. rewrite Heq in Hlt. by apply date_lt_irrefl in Hlt.
  - intros q. rewrite main_date_skips. destruct (runs_round_trip m).
    + rewrite list_elem_of_filter. unfold date_skipped. tauto.
    + rewrite elem_of_nil. split; [done|]. by intros [? _].
  - intros q Hle (_ & _ & _ & Hlt%date_leb_false)%Hin. congruence.
Qed.

(** ** The size of the round-trip enumeration *)

Lemma length_queries_plus_skips m cities dd rd :
  runs_round_trip m = true → NoDup cities →
  length (round_trip_queries (main m cities dd rd)) +
  length (date_skips (main m cities dd rd)) = size_bound cities dd rd.
Proof.
  intros Hm Hnd. rewrite main_round_trip_queries, main_date_skips, Hm.
  by rewrite length_kept_skipped, length_distinct_combinations.
Qed.

(** With two cities or more, no combination is dropped for its dates
    exactly when every outbound date is before every return date. *)
Lemma no_date_skips_iff m cities dd rd :
  runs_round_trip m = true → NoDup cities → (2 ≤ length cities)%nat →
  date_skips (main m cities dd rd) = [] ↔
  ∀ d r, d ∈ dd → r ∈ rd → date_lt d r.
Proof.
  intros Hm Hnd Hlen. rewrite main_date_skips, Hm.
  destruct cities as [|f [|t cities]]; simpl in Hlen; try lia.
  assert (Hft : f ≠ t).
  { apply NoDup_cons in Hnd as [Hf _]. intros ->. apply Hf. by left. }
  split.
  - intros Hnil d r Hd Hr. apply date_leb_false.
    destruct (date_leb r d) eqn:E; [exfalso|done].
    eapply (filter_nil_not_elem_of _ _
              {| origin := f; destination := t;
                 outbound_date := d; return_date := r |} Hnil).
    + by split.
    + apply elem_of_combinations. simpl.
      split; [by left|]. split; [by right; left|]. done.
  - intros Hall.
    destruct (filter date_skipped _) as [|q l] eqn:E; [done|exfalso].
    assert (Hq : q ∈ filter date_skipped (combinations (f :: t :: cities) dd rd))
      by (rewrite E; by left).
    apply list_elem_of_filter in Hq as [[_ Hle] Hq].
    apply elem_of_combinations in Hq as (_ & _ & Hd & Hr).
    pose proof (Hall _ _ Hd Hr) as Hlt. apply date_leb_false in Hlt. congruence.
Qed.

(** C7 (as amended).  For cities that are pairwise different, the run
    makes at most |C| (|C| - 1) |D_out| |D_ret| round-trip queries, and
    exactly that many if and only if no combination is dropped for its
    dates (with two cities or more: if and only if every outbound date is
    before every return date).  The queries are the kept combinations in the order of the
    Cartesian product, origin outermost and return date innermost; none is
    repeated when neither list of dates repeats a date. *)
Theorem round_trip_enumeration_size m cities dd rd :
  runs_round_trip m = true → NoDup cities →
  (length (round_trip_queries (main m cities dd rd))
   ≤ size_bound cities dd rd)%nat ∧
  (length (round_trip_queries (main m cities dd rd)) = size_bound cities dd rd ↔
   date_skips (main m cities dd rd) = []) ∧
  ((2 ≤ length cities)%nat →
   (length (round_trip_queries (main m cities dd rd)) = size_bound cities dd rd ↔
    ∀ d r, d ∈ dd → r ∈ rd → date_lt d r)) ∧
  (NoDup dd → NoDup rd → NoDup (round_trip_queries (main m cities dd rd))) ∧
  round_trip_queries (main m cities dd rd) =
    filter kept (combinations cities dd rd).
Proof.
  intros Hm Hnd.
  pose proof (length_queries_plus_skips m cities dd rd Hm Hnd) as Hsum.
  assert (Hiff : length (round_trip_queries (main m cities dd rd))
                 = size_bound cities dd rd ↔
                 date_skips (main m cities dd rd) = []).
  { split.
    - intros Heq. apply length_zero_iff_nil. lia.
    - intros Hnil. rewrite Hnil in Hsum. simpl in Hsum. lia. }
  split; [lia|]. split; [exact Hiff|]. split; [|split].
  - intros Hlen. rewrite Hiff. by apply no_date_skips_iff.
  - intros Hdd Hrd. rewrite main_round_trip_queries, Hm.
    by apply NoDup_filter, NoDup_combinations.
  - by rewrite main_round_trip_queries, Hm.
Qed.

Lemma round_trip_enumeration_size_witness :
  runs_round_trip ModeBoth = true ∧ NoDup sample_cities ∧
  length (round_trip_queries
            (main ModeBoth sample_cities [mar 1; mar 3] [mar 2; mar 5])) = 6 ∧
  size_bound sample_cities [mar 1; mar 3] [mar 2; mar 5] = 8 ∧
  length (date_skips
            (main ModeBoth sample_cities [mar 1; mar 3] [mar 2; mar 5])) = 2 ∧
  NoDup (round_trip_queries
           (main ModeBoth sample_cities [mar 1; mar 3] [mar 2; mar 5])) ∧
  round_trip_queries (main ModeBoth sample_cities [mar 1; mar 3] [mar 2; mar 5]) =
    filter kept (combinations sample_cities [mar 1; mar 3] [mar 2; mar 5]).
Proof.
  assert (H1 : runs_round_trip ModeBoth = true) by reflexivity.
  assert (H2 : NoDup sample_cities)
    by (apply (bool_decide_unpack _); vm_compute; reflexivity).
  assert (H3 : NoDup [mar 1; mar 3])
    by (apply (bool_decide_unpack _); vm_compute; reflexivity).
  assert (H4 : NoDup [mar 2; mar 5])
    by (apply (bool_decide_unpack _); vm_compute; reflexivity).
  destruct (round_trip_enumeration_size ModeBoth sample_cities
              [mar 1; mar 3] [mar 2; mar 5] H1 H2)
    as (_ & _ & _ & Hnodup & Horder).
  split; [exact H1|]. split; [exact H2|].
  split; [vm_compute; reflexivity|]. split; [reflexivity|].
  split; [vm_compute; reflexivity|].
  split; [exact (Hnodup H3 H4)|exact Horder].
Defined.

(** C7 as the specification words it fails: a date given twice gives
    every query of that date twice. *)
Lemma repeated_date_repeats_queries :
  NoDup sample_cities ∧
  round_trip_queries (main ModeRoundTrip sample_cities [mar 1; mar 1] [mar 5]) =
    [ {| origin := "DEL"; destination := "BOM";
         outbound_date := mar 1; return_date := mar 5 |};
      {| origin := "DEL"; destination := "BOM";
         outbound_date := mar 1; return_date := mar 5 |};
      {| origin := "BOM"; destination := "DEL";
         outbound_date := mar 1; return_date := mar 5 |};
      {| origin := "BOM"; destination := "DEL";
         outbound_date := mar 1; return_date := mar 5 |} ] ∧
  ¬ NoDup (round_trip_queries
             (main ModeRoundTrip sample_cities [mar 1; mar 1] [mar 5])).
Proof.
  assert (H : round_trip_queries
                (main ModeRoundTrip sample_cities [mar 1; mar 1] [mar 5]) =
    [ {| origin := "DEL"; destination := "BOM";
         outbound_date := mar 1; return_date := mar 5 |};
      {| origin := "DEL"; destination := "BOM";
         outbound_date := mar 1; return_date := mar 5 |};
      {| origin := "BOM"; destination := "DEL";
         outbound_date := mar 1; return_date := mar 5 |};
      {| origin := "BOM"; destination := "DEL";
         outbound_date := mar 1; return_date := mar 5 |} ])
    by (vm_compute; reflexivity).
  split; [apply (bool_decide_unpack _); vm_compute; reflexivity|].
  split; [exact H|].
  rewrite H. intros Hnd. apply NoDup_cons in Hnd as [Hnotin _].
  apply Hnotin. by left.
Qed.

(** With a single city nothing is enumerated, so the bound, zero, is met
    whatever the dates are. *)
Example single_city_meets_bound :
  round_trip_queries (main ModeRoundTrip ["DEL"] [mar 5] [mar 1]) = [] ∧
  size_bound ["DEL"] [mar 5] [mar 1] = 0 ∧
  date_skips (main ModeRoundTrip ["DEL"] [mar 5] [mar 1]) = [] ∧
  ¬ date_lt (mar 5) (mar 1).
Proof. repeat split; try (vm_compute; reflexivity). by vm_compute. Qed.

(** * Further properties of the normalizers *)

(** The two loop bodies raise alike. *)
Lemma rows_raise_alike stamp entry x :
  flight_row entry = Raise x ↔ roundtrip_row stamp entry = Raise x.
Proof.
  unfold flight_row, roundtrip_row.
  destruct (py_getitem entry "flights") as [fl|] eqn:Hfl; simpl; [|split; congruence].
  apply py_getitem_ok in Hfl as (e & -> & _).
  destruct (py_getitem0 fl) as [seg|]; simpl; [|split; congruence].
  destruct seg as [| | | | | |s]; simpl; try (split; congruence).
  unfold airport_field; simpl.
  destruct (s !! "departure_airport") as [[| | | | | |dep]|]; simpl; try (split; congruence).
  destruct (dep !! "id"), (dep !! "name"), (dep !! "time"); simpl; try (split; congruence).
  destruct (s !! "arrival_airport") as [[| | | | | |arr]|]; simpl; try (split; congruence).
  destruct (arr !! "id"), (arr !! "name"), (arr !! "time"); simpl;
    split; congruence.
Qed.

(** X1.  The two loop bodies fail on the same entries and with the same
    exception; they succeed exactly on a dict whose ["flights"] is a list
    with a dict in front that has both airport references, each a dict with
    [id], [name] and [time].  No other key is needed. *)
Theorem normalizers_accept_same_entries stamp entry :
  (∀ x, flight_row entry = Raise x ↔ roundtrip_row stamp entry = Raise x) ∧
  (is_ok (flight_row entry) = true ↔
   ∃ e seg rest dep arr,
     entry = JDict e ∧ e !! "flights" = Some (JList (JDict seg :: rest)) ∧
     seg !! "departure_airport" = Some (JDict dep) ∧
     seg !! "arrival_airport" = Some (JDict arr) ∧
     is_Some (dep !! "id") ∧ is_Some (dep !! "name") ∧ is_Some (dep !! "time") ∧
     is_Some (arr !! "id") ∧ is_Some (arr !! "name") ∧ is_Some (arr !! "time")).
Proof.
  split.
  - intros x. apply rows_raise_alike.
  - rewrite flight_row_ok. unfold well_formed, first_segment. split.
    + destruct (py_getitem entry "flights") as [fl|] eqn:Hfl; simpl; [|done].
      apply py_getitem_ok in Hfl as (e & -> & He).
      destruct fl as [| | | |[|c s]|[|[| | | | | |seg] rest]|]; simpl; try done.
      unfold has_airport, has_key.
      destruct (seg !! "departure_airport") as [[| | | | | |dep]|] eqn:Hd;
        simpl; try done.
      destruct (seg !! "arrival_airport") as [[| | | | | |arr]|] eqn:Ha;
        simpl; rewrite ?andb_false_r; try done.
      destruct (dep !! "id") eqn:H1, (dep !! "name") eqn:H2,
        (dep !! "time") eqn:H3, (arr !! "id") eqn:H4,
        (arr !! "name") eqn:H5, (arr !! "time") eqn:H6; simpl; try done.
      intros _. exists e, seg, rest, dep, arr.
      rewrite H1, H2, H3, H4, H5, H6. by repeat split.
    + intros (e & seg & rest & dep & arr & -> & He & Hd & Ha
              & [? H1] & [? H2] & [? H3] & [? H4] & [? H5] & [? H6]).
      simpl. rewrite He. simpl. unfold has_airport, has_key.
      by rewrite Hd, Ha, H1, H2, H3, H4, H5, H6.
Qed.

(** X2.  Only the first segment of an entry is read: the segments after
    it change neither row. *)
Theorem later_segments_are_ignored stamp e seg rest :
  e !! "flights" = Some (JList (seg :: rest)) →
  flight_row (JDict e) = flight_row (JDict (<["flights" := JList [seg]]> e)) ∧
  roundtrip_row stamp (JDict e) =
    roundtrip_row stamp (JDict (<["flights" := JList [seg]]> e)).
Proof.
  intros He. unfold flight_row, roundtrip_row. simpl.
  rewrite He, lookup_insert_eq. simpl.
  by rewrite !lookup_insert_ne by done.
Qed.

Lemma later_segments_are_ignored_witness :
  ∃ e,
    e !! "flights" = Some (JList [sample_segment "AI 101"; sample_segment "AI 555"]) ∧
    flight_row (JDict e) =
      flight_row (JDict (<["flights" := JList [sample_segment "AI 101"]]> e)) ∧
    roundtrip_row (JStr "") (JDict e) =
      roundtrip_row (JStr "")
        (JDict (<["flights" := JList [sample_segment "AI 101"]]> e)).
Proof.
  exists (list_to_map
            [("flights", JList [sample_segment "AI 101"; sample_segment "AI 555"]);
             ("price", JInt 90)]).
  assert (H : (list_to_map
            [("flights", JList [sample_segment "AI 101"; sample_segment "AI 555"]);
             ("price", JInt 90)] : gmap string json) !! "flights"
          = Some (JList [sample_segment "AI 101"; sample_segment "AI 555"]))
    by (vm_compute; reflexivity).
  split; [exact H|].
  exact (later_segments_are_ignored (JStr "") _ _ _ H).
Defined.

(** X3.  The columns the two tables share hold the same values: the five
    segment columns, the six airport columns and the price of an entry are
    the same in its one-way row and in its round-trip row. *)
Theorem shared_columns_agree stamp entry row1 row2 :
  flight_row entry = Ok row1 →
  roundtrip_row stamp entry = Ok row2 →
  flight_number row1 = rt_flight_number row2 ∧
  airline row1 = rt_airline row2 ∧
  airplane row1 = rt_airplane row2 ∧
  travel_class row1 = rt_travel_class row2 ∧
  legroom row1 = rt_legroom row2 ∧
  departure_airport_id row1 = rt_departure_airport_id row2 ∧
  departure_airport_name row1 = rt_departure_airport_name row2 ∧
  departure_time row1 = rt_departure_time row2 ∧
  arrival_airport_id row1 = rt_arrival_airport_id row2 ∧
  arrival_airport_name row1 = rt_arrival_airport_name row2 ∧
  arrival_time row1 = rt_arrival_time row2 ∧
  price_usd row1 = rt_price_usd row2.
Proof.
  unfold flight_row, roundtrip_row. intros H1 H2.
  repeat match type of H1 with
         | mbind _ ?r = Ok _ =>
             destruct r; simpl in H1, H2; [|discriminate H1]
         end.
  binds_inv H2.
  injection H1 as <-. injection H2 as <-. simpl.
  repeat split; congruence.
Qed.

Lemma shared_columns_agree_witness :
  ∃ row1 row2,
    flight_row entry_A = Ok row1 ∧
    roundtrip_row (JStr "2025-02-20T10:15:00") entry_A = Ok row2 ∧
    flight_number row1 = rt_flight_number row2 ∧
    airline row1 = rt_airline row2 ∧
    airplane row1 = rt_airplane row2 ∧
    travel_class row1 = rt_travel_class row2 ∧
    legroom row1 = rt_legroom row2 ∧
    departure_airport_id row1 = rt_departure_airport_id row2 ∧
    departure_airport_name row1 = rt_departure_airport_name row2 ∧
    departure_time row1 = rt_departure_time row2 ∧
    arrival_airport_id row1 = rt_arrival_airport_id row2 ∧
    arrival_airport_name row1 = rt_arrival_airport_name row2 ∧
    arrival_time row1 = rt_arrival_time row2 ∧
    price_usd row1 = rt_price_usd row2.
Proof.
  destruct (flight_row entry_A) as [row1|] eqn:H1; [|by vm_compute in H1].
  destruct (roundtrip_row (JStr "2025-02-20T10:15:00") entry_A) as [row2|] eqn:H2;
    [|by vm_compute in H2].
  exists row1, row2. split; [reflexivity|]. split; [reflexivity|].
  exact (shared_columns_agree _ entry_A row1 row2 H1 H2).
Defined.

Lemma collect_rows_first_error {R} (row_of : json → result R)
    good bad rest x :
  Forall (λ e, is_ok (row_of e) = true) good →
  row_of bad = Raise x →
  collect_rows row_of (good ++ bad :: rest) [] = Raise x.
Proof.
  intros Hgood Hbad. induction Hgood as [|e es He _ IH]; simpl.
  - by rewrite Hbad.
  - change (collect_rows row_of (e :: es ++ bad :: rest) [] = Raise x).
    rewrite collect_rows_cons. apply is_ok_true in He as [r ->]. simpl.
    by rewrite IH.
Qed.

(** X4.  The exception of a document is the exception of its first
    defective entry: the entries before it are well formed, the entries
    after it are never looked at. *)
Theorem first_defective_entry_decides data good bad rest x :
  all_flights data = Ok (good ++ bad :: rest) →
  Forall (λ e, well_formed e = true) good →
  flight_row bad = Raise x →
  normalize_one_way data = Raise x ∧ normalize_roundtrip data = Raise x.
Proof.
  intros Hall Hgood Hbad.
  destruct (all_flights_dict _ _ Hall) as [m ->].
  rewrite normalize_roundtrip_dict. unfold normalize_one_way.
  rewrite Hall. simpl. split.
  - apply collect_rows_first_error; [|done].
    eapply Forall_impl; [exact Hgood|]. intros e He. simpl.
    by rewrite flight_row_ok.
  - apply collect_rows_first_error.
    + eapply Forall_impl; [exact Hgood|]. intros e He. simpl.
      by rewrite roundtrip_row_ok.
    + by apply rows_raise_alike.
Qed.

Lemma first_defective_entry_decides_witness :
  all_flights defective_doc = Ok ([entry_A] ++ entry_no_time :: [entry_C]) ∧
  Forall (λ e, well_formed e = true) [entry_A] ∧
  flight_row entry_no_time = Raise (KeyError "time") ∧
  normalize_one_way defective_doc = Raise (KeyError "time") ∧
  normalize_roundtrip defective_doc = Raise (KeyError "time").
Proof.
  assert (H1 : all_flights defective_doc
               = Ok ([entry_A] ++ entry_no_time :: [entry_C]))
    by (vm_compute; reflexivity).
  assert (H2 : Forall (λ e, well_formed e = true) [entry_A])
    by (constructor; [vm_compute; reflexivity | constructor]).
  assert (H3 : flight_row entry_no_time = Raise (KeyError "time"))
    by (vm_compute; reflexivity).
  split; [exact H1|]. split; [exact H2|]. split; [exact H3|].
  exact (first_defective_entry_decides defective_doc [entry_A] entry_no_time
           [entry_C] (KeyError "time") H1 H2 H3).
Defined.

(** X5.  A list key that is present but [null] is not taken as missing:
    the default of [get] applies to a missing key only, and [None + list]
    is a TypeError for both normalizers. *)
Theorem null_list_is_a_type_error m :
  m !! "best_flights" = Some JNull ∨ m !! "other_flights" = Some JNull →
  normalize_one_way (JDict m) = Raise TypeError ∧
  normalize_roundtrip (JDict m) = Raise TypeError.
Proof.
  intros H. rewrite normalize_roundtrip_dict. unfold normalize_one_way.
  assert (Hall : all_flights (JDict m) = Raise TypeError).
  { unfold all_flights. rewrite !py_get_dict. simpl.
    destruct H as [-> | ->]; simpl; [done|].
    by destruct (default (JList []) (m !! "best_flights")). }
  by rewrite Hall.
Qed.

Lemma null_list_is_a_type_error_witness :
  ∃ m : gmap string json,
    (m !! "best_flights" = Some JNull ∨ m !! "other_flights" = Some JNull) ∧
    m !! "other_flights" = Some (JList [entry_A]) ∧
    normalize_one_way (JDict m) = Raise TypeError ∧
    normalize_roundtrip (JDict m) = Raise TypeError.
Proof.
  exists (list_to_map [("best_flights", JNull);
                       ("other_flights", JList [entry_A])]).
  assert (H : (list_to_map [("best_flights", JNull);
                            ("other_flights", JList [entry_A])]
               : gmap string json) !! "best_flights" = Some JNull ∨
              (list_to_map [("best_flights", JNull);
                            ("other_flights", JList [entry_A])]
               : gmap string json) !! "other_flights" = Some JNull)
    by (left; vm_compute; reflexivity).
  split; [exact H|]. split; [vm_compute; reflexivity|].
  exact (null_list_is_a_type_error _ H).
Defined.

(** X6.  A document without [_fetched_at], such as one saved by the
    one-way fetch, gives round-trip rows whose [fetched_at] is the empty
    string. *)
Theorem unstamped_document_gives_empty_stamp m rows :
  m !! "_fetched_at" = None →
  normalize_roundtrip (JDict m) = Ok rows →
  Forall (λ row, fetched_at row = JStr "") rows.
Proof.
  intros Hm H. apply normalize_roundtrip_fetched_at in H.
  by rewrite Hm in H.
Qed.

Lemma unstamped_document_gives_empty_stamp_witness :
  ∃ (m : gmap string json) rows,
    sample_doc = JDict m ∧ m !! "_fetched_at" = None ∧
    normalize_roundtrip (JDict m) = Ok rows ∧ length rows = 3 ∧
    Forall (λ row, fetched_at row = JStr "") rows.
Proof.
  do 2 eexists. split; [reflexivity|].
  match goal with
  | |- ?A ∧ ?B ∧ _ =>
      assert (H1 : A) by (vm_compute; reflexivity);
      assert (H2 : B) by (vm_compute; reflexivity)
  end.
  split; [exact H1|]. split; [exact H2|]. split; [reflexivity|].
  exact (unstamped_document_gives_empty_stamp _ _ H1 H2).
Defined.

(** A row depends on the stamp through its last column only. *)
Lemma roundtrip_row_restamp s1 s2 entry :
  roundtrip_row s2 entry =
  match roundtrip_row s1 entry with
  | Ok row => Ok (with_fetched_at s2 row)
  | Raise x => Raise x
  end.
Proof.
  unfold roundtrip_row.
  repeat match goal with
         | |- context [mbind _ ?r] => destruct r; simpl; [|reflexivity]
         end.
  reflexivity.
Qed.

Lemma collect_rows_restamp s1 s2 entries :
  collect_rows (roundtrip_row s2) entries [] =
  match collect_rows (roundtrip_row s1) entries [] with
  | Ok rows => Ok (with_fetched_at s2 <$> rows)
  | Raise x => Raise x
  end.
Proof.
  induction entries as [|e es IH]; [done|].
  rewrite !collect_rows_cons, (roundtrip_row_restamp s1 s2 e).
  destruct (roundtrip_row s1 e) as [r|x]; simpl; [|done].
  rewrite IH. by destruct (collect_rows (roundtrip_row s1) es []).
Qed.

Lemma normalize_stamped m now :
  all_flights (JDict (<["_fetched_at" := JStr now]> m)) = all_flights (JDict m) ∧
  normalize_one_way (JDict (<["_fetched_at" := JStr now]> m))
    = normalize_one_way (JDict m) ∧
  normalize_roundtrip (JDict (<["_fetched_at" := JStr now]> m)) =
    match normalize_roundtrip (JDict m) with
    | Ok rows => Ok (with_fetched_at (JStr now) <$> rows)
    | Raise x => Raise x
    end.
Proof.
  assert (Hall : all_flights (JDict (<["_fetched_at" := JStr now]> m))
                 = all_flights (JDict m)).
  { unfold all_flights. rewrite !py_get_dict.
    by rewrite !lookup_insert_ne by done. }
  split; [exact Hall|]. split.
  - unfold normalize_one_way. by rewrite Hall.
  - rewrite !normalize_roundtrip_dict, Hall, lookup_insert_eq. simpl.
    destruct (all_flights (JDict m)) as [es|x]; simpl; [|done].
    apply collect_rows_restamp.
Qed.

(** X7.  Stamping a response changes nothing but the stamp: the entries
    are the same, the one-way rows are the same, the round-trip normalizer
    fails with the same exception or gives the same rows with [fetched_at]
    replaced.  A [_fetched_at] that the provider sent is overwritten. *)
Theorem stamping_changes_only_the_stamp m now :
  all_flights (JDict (<["_fetched_at" := JStr now]> m)) = all_flights (JDict m) ∧
  normalize_one_way (JDict (<["_fetched_at" := JStr now]> m))
    = normalize_one_way (JDict m) ∧
  normalize_roundtrip (JDict (<["_fetched_at" := JStr now]> m)) =
    match normalize_roundtrip (JDict m) with
    | Ok rows => Ok (with_fetched_at (JStr now) <$> rows)
    | Raise x => Raise x
    end.
Proof. apply normalize_stamped. Qed.

(** ** The pipelines *)

(** X8.  What the one-way pipeline returns depends on the response alone,
    not on what the files held before.  The response is saved also when it
    cannot be normalised; the table is written only when it can. *)
Theorem one_way_pipeline_outcome results raw out fs :
  one_way_pipeline results raw out fs =
  match normalize_one_way results with
  | Ok rows =>
      (Ok rows, <[out := OneWayCsv rows]> (<[raw := RawJson results]> fs))
  | Raise x => (Raise x, <[raw := RawJson results]> fs)
  end.
Proof.
  unfold one_way_pipeline, fetch_flight_data_raw.
  apply process_flight_data_loaded, lookup_insert_eq.
Qed.

(** X9.  The round-trip pipeline on a response that is a dict: the rows
    are those of the stamped response, each with the time of this fetch,
    whatever the files held before and whatever stamp the response had. *)
Theorem roundtrip_pipeline_outcome m now raw out fs :
  roundtrip_pipeline (JDict m) now raw out fs =
  match normalize_roundtrip (JDict m) with
  | Ok rows =>
      (Ok (with_fetched_at (JStr now) <$> rows),
       <[out := RoundTripCsv (with_fetched_at (JStr now) <$> rows)]>
         (<[raw := RawJson (JDict (<["_fetched_at" := JStr now]> m))]> fs))
  | Raise x =>
      (Raise x, <[raw := RawJson (JDict (<["_fetched_at" := JStr now]> m))]> fs)
  end.
Proof.
  unfold roundtrip_pipeline, fetch_roundtrip_data_raw. simpl.
  rewrite (process_roundtrip_data_loaded _ _ _
             (JDict (<["_fetched_at" := JStr now]> m)))
    by apply lookup_insert_eq.
  destruct (normalize_stamped m now) as (_ & _ & ->).
  by destruct (normalize_roundtrip (JDict m)).
Qed.

(** X10.  Processing changes no file but [output_csv], and changes none
    when it raises.  When the table goes to another file than the one that
    is read, processing again gives the same rows and the same files. *)
Theorem processing_is_repeatable raw out fs :
  (∀ name, name ≠ out →
     (process_flight_data raw out fs).2 !! name = fs !! name) ∧
  (is_ok (process_flight_data raw out fs).1 = false →
     (process_flight_data raw out fs).2 = fs) ∧
  (raw ≠ out →
     process_flight_data raw out (process_flight_data raw out fs).2
     = process_flight_data raw out fs) ∧
  (∀ name, name ≠ out →
     (process_roundtrip_data raw out fs).2 !! name = fs !! name) ∧
  (is_ok (process_roundtrip_data raw out fs).1 = false →
     (process_roundtrip_data raw out fs).2 = fs) ∧
  (raw ≠ out →
     process_roundtrip_data raw out (process_roundtrip_data raw out fs).2
     = process_roundtrip_data raw out fs).
Proof.
  unfold process_flight_data, process_roundtrip_data.
  assert (Hload : ∀ (f : file), raw ≠ out →
            load_json raw (<[out := f]> fs) = load_json raw fs).
  { intros f Hne. unfold load_json. by rewrite lookup_insert_ne. }
  repeat split.
  - intros name Hne.
    destruct (load_json raw fs ≫= normalize_one_way); simpl; [|done].
    by rewrite lookup_insert_ne.
  - by destruct (load_json raw fs ≫= normalize_one_way).
  - intros Hne.
    destruct (load_json raw fs ≫= normalize_one_way) as [rows|x] eqn:E; simpl.
    + rewrite Hload, E by done. by rewrite insert_insert_eq.
    + by rewrite E.
  - intros name Hne.
    destruct (load_json raw fs ≫= normalize_roundtrip); simpl; [|done].
    by rewrite lookup_insert_ne.
  - by destruct (load_json raw fs ≫= normalize_roundtrip).
  - intros Hne.
    destruct (load_json raw fs ≫= normalize_roundtrip) as [rows|x] eqn:E; simpl.
    + rewrite Hload, E by done. by rewrite insert_insert_eq.
    + by rewrite E.
Qed.

(** * The command line *)

(** ** Splitting at commas *)

Lemma py_split_nonempty sep s : py_split sep s ≠ [].
Proof.
  destruct s as [|c s]; simpl; [done|].
  case_bool_decide; [done|]. by destruct (py_split sep s).
Qed.

Lemma py_join_cons sep piece rest :
  rest ≠ [] →
  py_join sep (piece :: rest) = piece +:+ String sep (py_join sep rest).
Proof. by destruct rest. Qed.

Lemma py_join_split sep s : py_join sep (py_split sep s) = s.
Proof.
  induction s as [|c s IH]; [done|]. simpl.
  case_bool_decide as Hc.
  - rewrite py_join_cons by apply py_split_nonempty.
    simpl. by rewrite IH, Hc.
  - destruct (py_split sep s) as [|p [|q ps]] eqn:E.
    + by apply py_split_nonempty in E.
    + simpl in *. by rewrite IH.
    + rewrite py_join_cons in IH by done. rewrite py_join_cons by done.
      by rewrite <- IH.
Qed.

Lemma py_split_pieces_free sep s :
  Forall (λ piece, free_of sep piece = true) (py_split sep s).
Proof.
  induction s as [|c s IH]; simpl; [by constructor|].
  case_bool_decide as Hc; [by constructor|].
  destruct (py_split sep s) as [|p ps].
  - constructor; [|constructor]. simpl. by rewrite bool_decide_eq_false_2.
  - apply Forall_cons in IH as [Hp Hps]. constructor; [|done].
    simpl. by rewrite bool_decide_eq_false_2, Hp.
Qed.

Lemma py_split_app_sep sep piece s :
  free_of sep piece = true →
  py_split sep (piece +:+ String sep s) = piece :: py_split sep s.
Proof.
  induction piece as [|c p IH]; simpl.
  - intros _. by rewrite bool_decide_eq_true_2.
  - intros [Hc Hp]%andb_prop. apply negb_true_iff in Hc.
    rewrite Hc, IH by done. done.
Qed.

Lemma py_split_free sep piece :
  free_of sep piece = true → py_split sep piece = [piece].
Proof.
  induction piece as [|c p IH]; simpl; [done|].
  intros [Hc Hp]%andb_prop. apply negb_true_iff in Hc.
  by rewrite Hc, IH.
Qed.

Lemma py_split_join sep pieces :
  pieces ≠ [] →
  Forall (λ piece, free_of sep piece = true) pieces →
  py_split sep (py_join sep pieces) = pieces.
Proof.
  intros Hne Hfree. induction Hfree as [|p ps Hp Hps IH]; [done|].
  destruct ps as [|q ps].
  - simpl. by apply py_split_free.
  - rewrite py_join_cons by done.
    rewrite py_split_app_sep by done. f_equal. by apply IH.
Qed.

(** X11.  Splitting at a separator and joining with it are inverse to each
    other: joining the pieces of a string gives the string back, the
    pieces are never none and never contain the separator, and every list
    of at least one separator-free piece is the split of its join. *)
Theorem split_join_round_trip sep :
  (∀ s, py_join sep (py_split sep s) = s) ∧
  (∀ s, py_split sep s ≠ [] ∧
        Forall (λ piece, free_of sep piece = true) (py_split sep s)) ∧
  (∀ pieces, pieces ≠ [] →
     Forall (λ piece, free_of sep piece = true) pieces →
     py_split sep (py_join sep pieces) = pieces).
Proof.
  split; [apply py_join_split|]. split; [|apply py_split_join].
  intros s. split; [apply py_split_nonempty | apply py_split_pieces_free].
Qed.

(** ** Dates and the start of a run *)

Section driver_properties.
Context (fromisoformat : string → option date).

Lemma parse_dates_ok_iff pieces dates :
  parse_dates fromisoformat pieces = inr dates ↔
  Forall2 (λ piece d, fromisoformat piece = Some d) pieces dates.
Proof.
  revert dates. induction pieces as [|p ps IH]; intros dates; simpl.
  - split; [intros [= <-]; constructor | by inversion 1].
  - destruct (fromisoformat p) as [d|] eqn:Hp.
    + destruct (parse_dates fromisoformat ps) as [e|ds] eqn:Hps.
      * split; [done|]. inversion 1 as [|? ? ? ds' _ Hds]; subst.
        apply IH in Hds. discriminate.
      * split.
        -- intros [= <-]. constructor; [done|]. by apply IH.
        -- inversion 1 as [|? d' ? ds' Hd Hds]; subst.
           apply IH in Hds. congruence.
    + split; [done|]. inversion 1; congruence.
Qed.

Lemma parse_dates_first_error good bad rest :
  Forall (λ piece, is_Some (fromisoformat piece)) good →
  fromisoformat bad = None →
  parse_dates fromisoformat (good ++ bad :: rest) = inl (ValueError bad).
Proof.
  intros Hgood Hbad. induction Hgood as [|p ps [d Hp] _ IH]; simpl.
  - by rewrite Hbad.
  - by rewrite Hp, IH.
Qed.

Lemma iso_dates_nonempty date_strings dates :
  iso_dates fromisoformat date_strings = inr dates → dates ≠ [].
Proof.
  unfold iso_dates. intros H%parse_dates_ok_iff ->.
  pose proof (py_split_nonempty "," date_strings) as Hne.
  by inversion H as [Hnil|]; subst; rewrite <- Hnil in Hne.
Qed.

(** X12.  [iso_dates] gives one date for each piece between the commas,
    in the order of the pieces, so never an empty list; it raises
    ValueError, naming the piece, for the first piece that is no date. *)
Theorem iso_dates_piece_by_piece date_strings :
  (∀ dates, iso_dates fromisoformat date_strings = inr dates ↔
     Forall2 (λ piece d, fromisoformat piece = Some d)
       (py_split "," date_strings) dates) ∧
  (∀ dates, iso_dates fromisoformat date_strings = inr dates →
     dates ≠ [] ∧ length dates = length (py_split "," date_strings)) ∧
  (∀ good bad rest,
     py_split "," date_strings = good ++ bad :: rest →
     Forall (λ piece, is_Some (fromisoformat piece)) good →
     fromisoformat bad = None →
     iso_dates fromisoformat date_strings = inl (ValueError bad)).
Proof.
  unfold iso_dates. split; [intros dates; apply parse_dates_ok_iff|]. split.
  - intros dates H. split; [by eapply iso_dates_nonempty|].
    apply parse_dates_ok_iff in H. by apply Forall2_length in H.
  - intros good bad rest -> Hgood Hbad. by apply parse_dates_first_error.
Qed.

Lemma main_cli_inr api_key args steps :
  main_cli fromisoformat api_key args = inr steps →
  ∃ dd rd,
    iso_dates fromisoformat (arg_depart_dates args) = inr dd ∧
    match arg_return_dates args with
    | None | Some EmptyString => rd = []
    | Some s => iso_dates fromisoformat s = inr rd
    end ∧
    steps = main (arg_mode args) (py_split "," (arg_cities args)) dd rd.
Proof.
  unfold main_cli. destruct api_key as [[|c k]|]; try discriminate.
  destruct (iso_dates fromisoformat (arg_depart_dates args)) as [e|dd];
    [discriminate|].
  destruct (arg_return_dates args) as [[|c' s]|].
  - intros [= <-]. by exists dd, [].
  - destruct (iso_dates fromisoformat (String c' s)) as [e|rd]; [discriminate|].
    intros [= <-]. by exists dd, rd.
  - intros [= <-]. by exists dd, [].
Qed.

(** X13.  The round-trip loops run exactly when the mode asks for them and
    [--return_dates] was given and is not empty: [iso_dates] never gives
    an empty list, so the test of [return_dates] fails for a missing or
    empty argument only.  When they do not run there is no round-trip
    query and no date is compared. *)
Theorem round_trip_needs_return_dates api_key args steps :
  main_cli fromisoformat api_key args = inr steps →
  ∃ dd rd,
    steps = main (arg_mode args) (py_split "," (arg_cities args)) dd rd ∧
    (py_truthy rd = false ↔
     arg_return_dates args = None ∨ arg_return_dates args = Some "") ∧
    (py_truthy rd = false →
     round_trip_queries steps = [] ∧ date_skips steps = [] ∧
     (arg_mode args = ModeRoundTrip → steps = [])).
Proof.
  intros (dd & rd & Hdd & Hrd & ->)%main_cli_inr. exists dd, rd.
  split; [done|]. split.
  - destruct (arg_return_dates args) as [[|c s]|].
    + subst rd. split; [by right | done].
    + apply iso_dates_nonempty in Hrd. destruct rd; [done|].
      split; [done|]. by intros [|].
    + subst rd. split; [by left | done].
  - intros Hempty. destruct rd; [|done].
    rewrite main_round_trip_queries, main_date_skips, combinations_no_return.
    split; [by destruct (runs_round_trip _)|].
    split; [by destruct (runs_round_trip _)|].
    intros ->. done.
Qed.
End driver_properties.

Lemma round_trip_needs_return_dates_witness :
  ∃ steps,
    main_cli sample_fromisoformat (Some "secret") (sample_args None ModeBoth)
      = inr steps ∧
    length (one_way_queries steps) = 2 ∧
    ∃ dd rd,
      steps = main ModeBoth (py_split "," "DEL,BOM") dd rd ∧
      (py_truthy rd = false ↔
       arg_return_dates (sample_args None ModeBoth) = None ∨
       arg_return_dates (sample_args None ModeBoth) = Some "") ∧
      (py_truthy rd = false →
       round_trip_queries steps = [] ∧ date_skips steps = [] ∧
       (arg_mode (sample_args None ModeBoth) = ModeRoundTrip → steps = [])).
Proof.
  eexists.
  match goal with
  | |- ?A ∧ _ => assert (H : A) by (vm_compute; reflexivity)
  end.
  split; [exact H|]. split; [reflexivity|].
  exact (round_trip_needs_return_dates sample_fromisoformat _ _ _ H).
Defined.

(** * Further properties of the enumeration *)

(** X14.  Mode [both] is the one-way run followed by the round-trip run;
    the one-way run makes no round-trip query and compares no dates, the
    round-trip run makes no one-way query. *)
Theorem modes_compose cities dd rd :
  main ModeBoth cities dd rd =
    main ModeOneWay cities dd rd ++ main ModeRoundTrip cities dd rd ∧
  round_trip_queries (main ModeOneWay cities dd rd) = [] ∧
  date_skips (main ModeOneWay cities dd rd) = [] ∧
  one_way_queries (main ModeRoundTrip cities dd rd) = [].
Proof.
  split; [|split; [|split]].
  - rewrite !main_steps. simpl. by rewrite app_nil_r.
  - by rewrite main_round_trip_queries.
  - by rewrite main_date_skips.
  - by rewrite main_one_way_queries.
Qed.

(** The one-way queries as a comprehension. *)
Lemma one_way_queries_steps cities dd :
  one_way_queries (one_way_steps cities dd) =
  f ← cities; t ← cities;
  if bool_decide (f = t) then []
  else d ← dd; [{| ow_origin := f; ow_destination := t;
                   ow_outbound_date := d |}].
Proof.
  unfold one_way_queries, one_way_steps.
  rewrite omap_bind. apply list_bind_ext; [|done]. intros f.
  rewrite omap_bind. apply list_bind_ext; [|done]. intros t.
  case_bool_decide; [done|].
  rewrite omap_bind. by apply list_bind_ext.
Qed.

Lemma length_one_way_row (f : string) (ts : list string) (dd : list date) :
  length (ts ≫= (λ t, if bool_decide (f = t) then []
                      else d ← dd; [{| ow_origin := f; ow_destination := t;
                                       ow_outbound_date := d |}]))
  = length (filter (λ t, f ≠ t) ts) * length dd.
Proof.
  induction ts as [|t ts IH]; [done|].
  rewrite bind_cons, length_app, IH, filter_cons.
  case_bool_decide as Hft.
  - rewrite decide_False by (intros Hne; by apply Hne). done.
  - rewrite decide_True by done. simpl. f_equal.
    rewrite (length_bind_const _ _ 1); [lia|done].
Qed.

(** X15.  For cities that are pairwise different a run that includes the
    one-way loops makes exactly |C| (|C| - 1) |D| one-way queries: every
    ordered pair of different cities on every departure date. *)
Theorem one_way_enumeration_size m cities dd rd :
  runs_one_way m = true → NoDup cities →
  length (one_way_queries (main m cities dd rd))
  = length cities * (length cities - 1) * length dd.
Proof.
  intros Hm Hnd. rewrite main_one_way_queries, Hm, one_way_queries_steps.
  rewrite (length_bind_const _ _ ((length cities - 1) * length dd)); [lia|].
  intros f Hf. by rewrite length_one_way_row, length_others.
Qed.

Lemma one_way_enumeration_size_witness :
  runs_one_way ModeBoth = true ∧ NoDup ["DEL"; "BOM"; "BLR"] ∧
  length (one_way_queries
            (main ModeBoth ["DEL"; "BOM"; "BLR"] [mar 1; mar 3] [mar 5]))
  = length ["DEL"; "BOM"; "BLR"] * (length ["DEL"; "BOM"; "BLR"] - 1)
    * length [mar 1; mar 3].
Proof.
  assert (H1 : runs_one_way ModeBoth = true) by reflexivity.
  assert (H2 : NoDup ["DEL"; "BOM"; "BLR"])
    by (apply (bool_decide_unpack _); vm_compute; reflexivity).
  split; [exact H1|]. split; [exact H2|].
  exact (one_way_enumeration_size ModeBoth _ [mar 1; mar 3] [mar 5] H1 H2).
Defined.

Lemma elem_of_main_one_way q m cities dd rd :
  q ∈ one_way_queries (main m cities dd rd) ↔
  runs_one_way m = true ∧
  ow_origin q ∈ cities ∧ ow_destination q ∈ cities ∧
  ow_outbound_date q ∈ dd ∧ ow_origin q ≠ ow_destination q.
Proof.
  rewrite main_one_way_queries. destruct (runs_one_way m).
  - rewrite elem_of_one_way_steps. tauto.
  - rewrite elem_of_nil. split; [done|]. by intros [? _].
Qed.

Lemma elem_of_main_round_trip q m cities dd rd :
  q ∈ round_trip_queries (main m cities dd rd) ↔
  runs_round_trip m = true ∧
  origin q ∈ cities ∧ destination q ∈ cities ∧
  outbound_date q ∈ dd ∧ return_date q ∈ rd ∧
  origin q ≠ destination q ∧ date_lt (outbound_date q) (return_date q).
Proof.
  rewrite main_round_trip_queries. destruct (runs_round_trip m).
  - rewrite list_elem_of_filter, elem_of_combinations. unfold kept. tauto.
  - rewrite elem_of_nil. split; [done|]. by intros [? _].
Qed.

(** X16.  Every trip is queried in both directions: a run that queries a
    trip from A to B also queries the trip from B to A on the same dates,
    one-way and round-trip alike. *)
Theorem both_directions_are_queried m cities dd rd :
  (∀ q, q ∈ one_way_queries (main m cities dd rd) ↔
        reverse_one_way q ∈ one_way_queries (main m cities dd rd)) ∧
  (∀ q, q ∈ round_trip_queries (main m cities dd rd) ↔
        reverse_round_trip q ∈ round_trip_queries (main m cities dd rd)).
Proof.
  split; intros q.
  - rewrite !elem_of_main_one_way. simpl. split; intros (?&?&?&?&?); auto 10.
  - rewrite !elem_of_main_round_trip. simpl.
    split; intros (?&?&?&?&?&?&?); auto 10.
Qed.

(** X17.  The one-way queries of a run are exactly the trips between two
    different cities of the list on a date of the list; with fewer than
    two different cities a run makes no query at all. *)
Theorem one_way_queries_are_the_trips m cities dd rd :
  (∀ q, q ∈ one_way_queries (main m cities dd rd) ↔
        runs_one_way m = true ∧
        ow_origin q ∈ cities ∧ ow_destination q ∈ cities ∧
        ow_outbound_date q ∈ dd ∧ ow_origin q ≠ ow_destination q) ∧
  ((∀ a b, a ∈ cities → b ∈ cities → a = b) →
   one_way_queries (main m cities dd rd) = [] ∧
   round_trip_queries (main m cities dd rd) = []).
Proof.
  split; [intros q; apply elem_of_main_one_way|].
  intros Hsame. split.
  - destruct (one_way_queries (main m cities dd rd)) as [|q l] eqn:E; [done|].
    assert (Hq : q ∈ one_way_queries (main m cities dd rd))
      by (rewrite E; left).
    apply elem_of_main_one_way in Hq as (_ & Ho & Hd & _ & Hne).
    by destruct (Hne (Hsame _ _ Ho Hd)).
  - destruct (round_trip_queries (main m cities dd rd)) as [|q l] eqn:E; [done|].
    assert (Hq : q ∈ round_trip_queries (main m cities dd rd))
      by (rewrite E; left).
    apply elem_of_main_round_trip in Hq as (_ & Ho & Hd & _ & _ & Hne & _).
    by destruct (Hne (Hsame _ _ Ho Hd)).
Qed.

(** * File names *)

(** ** Strings *)

Lemma string_app_inv_head (s a b : string) : s +:+ a = s +:+ b → a = b.
Proof. induction s as [|c s IH]; simpl; [done|]. intros [= H]. by apply IH. Qed.

Lemma string_length_app (a b : string) :
  String.length (a +:+ b) = String.length a + String.length b.
Proof. induction a as [|c a IH]; simpl; [done|]. by rewrite IH. Qed.

(** Two equal strings with prefixes of the same length. *)
Lemma string_app_inv_length (a b x y : string) :
  String.length a = String.length b →
  a +:+ x = b +:+ y → a = b ∧ x = y.
Proof.
  revert b. induction a as [|c a IH]; intros [|c' b]; simpl; try done.
  intros [= Hlen] [= -> H]. destruct (IH b Hlen H) as [-> ->]. done.
Qed.

Lemma string_app_inv_tail (a b s : string) : a +:+ s = b +:+ s → a = b.
Proof.
  intros H. apply (string_app_inv_length a b s s); [|done].
  apply (f_equal String.length) in H. rewrite !string_length_app in H. lia.
Qed.

(** Two equal strings cut at their first underscore. *)
Lemma string_app_inv_underscore (a b x y : string) :
  plain a = true → plain b = true →
  a +:+ String "_" x = b +:+ String "_" y → a = b ∧ x = y.
Proof.
  unfold plain. revert b.
  induction a as [|c a IH]; intros [|c' b]; simpl.
  - by intros _ _ [= ->].
  - intros _ [Hc _]%andb_prop [= <- _].
    by rewrite bool_decide_eq_true_2 in Hc.
  - intros [Hc _]%andb_prop _ [= -> _].
    by rewrite bool_decide_eq_true_2 in Hc.
  - intros [_ Ha]%andb_prop [_ Hb]%andb_prop [= -> H].
    destruct (IH b Ha Hb H) as [-> ->]. done.
Qed.

(** A name that ends in [.json] is no name that ends in [.csv]. *)
Lemma json_name_is_no_csv_name (a b : string) : a +:+ ".json" ≠ b +:+ ".csv".
Proof.
  intros H. assert (Hlen : String.length b = S (String.length a)).
  { apply (f_equal String.length) in H. rewrite !string_length_app in H.
    simpl in H. lia. }
  revert b H Hlen. induction a as [|c a IH]; intros [|c' b]; simpl; try done.
  - destruct b; simpl; [|done]. by intros [= _ ?].
  - intros [= _ H] [= Hlen]. by apply (IH b).
Qed.

(** ** Dates as text *)

Lemma digit_inj (a b : Z) : digit a = digit b → (a mod 10 = b mod 10)%Z.
Proof.
  unfold digit. intros H. apply (f_equal nat_of_ascii) in H.
  pose proof (Z.mod_pos_bound a 10 eq_refl).
  pose proof (Z.mod_pos_bound b 10 eq_refl).
  rewrite !nat_ascii_embedding in H by lia. lia.
Qed.

Lemma two_digits_inj (a b : Z) :
  (0 ≤ a < 100)%Z → (0 ≤ b < 100)%Z → two_digits a = two_digits b → a = b.
Proof.
  unfold two_digits. intros Ha Hb [= H1%digit_inj H2%digit_inj].
  Z.div_mod_to_equations. lia.
Qed.

Lemma four_digits_inj (a b : Z) :
  (0 ≤ a < 10000)%Z → (0 ≤ b < 10000)%Z →
  four_digits a = four_digits b → a = b.
Proof.
  unfold four_digits, two_digits.
  intros Ha Hb [= H1%digit_inj H2%digit_inj H3%digit_inj H4%digit_inj].
  Z.div_mod_to_equations. lia.
Qed.

Lemma date_str_length d : String.length (date_str d) = 10.
Proof. reflexivity. Qed.

Lemma date_str_inj d1 d2 :
  valid_date d1 → valid_date d2 → date_str d1 = date_str d2 → d1 = d2.
Proof.
  destruct d1 as [y1 m1 a1], d2 as [y2 m2 a2]. unfold valid_date, date_str.
  simpl. intros (Hy1 & Hm1 & Ha1) (Hy2 & Hm2 & Ha2) H.
  injection H as Y1 Y2 Y3 Y4 M1 M2 A1 A2.
  assert (four_digits y1 = four_digits y2) as Hy
    by (unfold four_digits, two_digits; congruence).
  assert (two_digits m1 = two_digits m2) as Hm
    by (unfold two_digits; congruence).
  assert (two_digits a1 = two_digits a2) as Ha
    by (unfold two_digits; congruence).
  apply four_digits_inj in Hy; [|lia..].
  apply two_digits_inj in Hm; [|lia..].
  apply two_digits_inj in Ha; [|lia..].
  by subst.
Qed.

(** X18.  Python writes a date as ten characters, [YYYY-MM-DD], and two
    different dates are never written alike. *)
Theorem date_text_identifies_the_date d1 d2 :
  valid_date d1 → valid_date d2 →
  String.length (date_str d1) = 10 ∧
  (date_str d1 = date_str d2 ↔ d1 = d2).
Proof.
  intros H1 H2. split; [apply date_str_length|].
  split; [by apply date_str_inj | by intros ->].
Qed.

Lemma date_text_identifies_the_date_witness :
  valid_date (mar 1) ∧ valid_date {| year := 987; month := 12; day := 31 |} ∧
  date_str {| year := 987; month := 12; day := 31 |} = "0987-12-31" ∧
  String.length (date_str (mar 1)) = 10 ∧
  (date_str (mar 1) = date_str {| year := 987; month := 12; day := 31 |} ↔
   mar 1 = {| year := 987; month := 12; day := 31 |}).
Proof.
  assert (H1 : valid_date (mar 1)) by (unfold valid_date; simpl; lia).
  assert (H2 : valid_date {| year := 987; month := 12; day := 31 |})
    by (unfold valid_date; simpl; lia).
  split; [exact H1|]. split; [exact H2|]. split; [vm_compute; reflexivity|].
  exact (date_text_identifies_the_date _ _ H1 H2).
Defined.

(** ** Names of the files of a query *)

Lemma string_app_assoc (a b c : string) : (a +:+ b) +:+ c = a +:+ (b +:+ c).
Proof.
  induction a as [|x a IH]; [done|].
  change (String x ((a +:+ b) +:+ c) = String x (a +:+ (b +:+ c))).
  by f_equal.
Qed.

Lemma string_cons_inv c (x y : string) : String c x = String c y → x = y.
Proof. by intros [=]. Qed.

Lemma one_way_name_inj q1 q2 sfx :
  good_one_way q1 → good_one_way q2 →
  one_way_stem q1 +:+ sfx = one_way_stem q2 +:+ sfx → q1 = q2.
Proof.
  destruct q1 as [o1 t1 d1], q2 as [o2 t2 d2].
  unfold good_one_way, one_way_stem. simpl.
  intros (Ho1 & Ht1 & Hd1) (Ho2 & Ht2 & Hd2) H.
  apply string_app_inv_tail in H.
  apply string_app_inv_underscore in H as [-> H]; [|done..].
  apply string_app_inv_underscore in H as [-> H]; [|done..].
  apply date_str_inj in H as ->; done.
Qed.

Lemma round_trip_name_inj q1 q2 sfx :
  good_round_trip q1 → good_round_trip q2 →
  round_trip_stem q1 +:+ sfx = round_trip_stem q2 +:+ sfx → q1 = q2.
Proof.
  destruct q1 as [o1 t1 d1 r1], q2 as [o2 t2 d2 r2].
  unfold good_round_trip, round_trip_stem. simpl.
  intros (Ho1 & Ht1 & Hd1 & Hr1) (Ho2 & Ht2 & Hd2 & Hr2) H.
  apply string_app_inv_tail in H.
  apply string_app_inv_underscore in H as [-> H]; [|done..].
  apply string_app_inv_underscore in H as [-> H]; [|done..].
  apply string_app_inv_length in H as [Hd Hr]; [|done].
  apply string_cons_inv in Hr.
  apply (date_str_inj d1 d2) in Hd as ->; [|done..].
  apply (date_str_inj r1 r2) in Hr as ->; done.
Qed.

Lemma one_way_name_is_no_round_trip_name q1 q2 c sfx :
  c ≠ "_"%char →
  good_one_way q1 → good_round_trip q2 →
  one_way_stem q1 +:+ String c sfx ≠ round_trip_stem q2 +:+ String c sfx.
Proof.
  destruct q1 as [o1 t1 d1], q2 as [o2 t2 d2 r2].
  unfold good_one_way, round_trip_stem, one_way_stem, good_round_trip. simpl.
  intros Hc (Ho1 & Ht1 & Hd1) (Ho2 & Ht2 & Hd2 & Hr2) H.
  rewrite ?string_app_assoc in H. simpl in H.
  apply string_app_inv_underscore in H as [-> H]; [|done..].
  rewrite ?string_app_assoc in H. simpl in H.
  apply string_app_inv_underscore in H as [-> H]; [|done..].
  rewrite ?string_app_assoc in H.
  apply string_app_inv_length in H as [_ H]; [|done].
  simpl in H. by injection H.
Qed.

(** X19.  For city codes without an underscore and dates Python has, the
    file names tell the queries apart: two one-way queries, or two
    round-trip queries, with the same raw file or the same table file are
    the same query, and no one-way query shares a file with a round-trip
    query.  A raw file is never a table file, whatever the queries. *)
Theorem file_names_identify_queries :
  (∀ q1 q2, good_one_way q1 → good_one_way q2 →
     one_way_raw_json q1 = one_way_raw_json q2 ∨
     one_way_csv_file q1 = one_way_csv_file q2 → q1 = q2) ∧
  (∀ q1 q2, good_round_trip q1 → good_round_trip q2 →
     round_trip_raw_json q1 = round_trip_raw_json q2 ∨
     round_trip_csv_file q1 = round_trip_csv_file q2 → q1 = q2) ∧
  (∀ q1 q2, good_one_way q1 → good_round_trip q2 →
     one_way_raw_json q1 ≠ round_trip_raw_json q2 ∧
     one_way_csv_file q1 ≠ round_trip_csv_file q2) ∧
  (∀ q1 q2 p1 p2,
     one_way_raw_json q1 ≠ one_way_csv_file q2 ∧
     one_way_raw_json q1 ≠ round_trip_csv_file p2 ∧
     round_trip_raw_json p1 ≠ one_way_csv_file q2 ∧
     round_trip_raw_json p1 ≠ round_trip_csv_file p2).
Proof.
  split; [|split; [|split]].
  - intros q1 q2 H1 H2 [H | H]; by apply one_way_name_inj in H.
  - intros q1 q2 H1 H2 [H | H]; by apply round_trip_name_inj in H.
  - intros q1 q2 H1 H2.
    split; by apply one_way_name_is_no_round_trip_name.
  - intros q1 q2 p1 p2. repeat split; apply json_name_is_no_csv_name.
Qed.

(** With an underscore in a city code two trips can share their files. *)
Example underscore_makes_names_clash :
  one_way_raw_json {| ow_origin := "A_B"; ow_destination := "C";
                      ow_outbound_date := mar 1 |} =
  one_way_raw_json {| ow_origin := "A"; ow_destination := "B_C";
                      ow_outbound_date := mar 1 |}.
Proof. reflexivity. Qed.
